(** * OmniSearch: ranking engine and A/B experiment subsystem

    A shallow embedding of the scoring, fusion, search, experiment-assignment
    and click-metrics code of the OmniSearch services, with the properties
    the specification states about them and further properties of the code.

    Conventions of the embedding.
    - A Python [str] is a [string]; the case and whitespace tables below are
      the ones Python applies to code points below 256.
    - A Python [float] of the ranking and fusion code is a real number
      ([R]): the arithmetic is exact, and binary64 rounding is not part of
      the model.  The click-through rates of the metrics code only divide
      two counters and are rationals ([Q]).
    - A Python [dict] used as a table is a [gmap]; a dict or object with a
      fixed set of keys is a record.
    - A call that can raise returns a [result]. *)

From Stdlib Require Import ZArith QArith Qround Reals Psatz.
From Stdlib Require Import String Ascii List Permutation Sorted.
From stdpp Require Import base gmap strings list fin_maps.

(** ** Exceptions *)

Inductive exn : Type :=
| ValueError (msg : string)
| RuntimeError (msg : string)
| IndexError (msg : string)
| Exception (msg : string)
| HTTPException (status_code : Z) (detail : string).

(** [str(e)] of an exception: its message. *)
Definition exn_str (e : exn) : string :=
  match e with
  | ValueError m | RuntimeError m | IndexError m | Exception m => m
  | HTTPException _ d => d
  end.

Inductive result (A : Type) : Type :=
| Return (a : A)
| Raise (e : exn).
Arguments Return {A} a.
Arguments Raise {A} e.

Definition bind {A B} (r : result A) (k : A -> result B) : result B :=
  match r with
  | Return a => k a
  | Raise e => Raise e
  end.

Notation "x <- r ;; k" := (bind r (fun x => k))
  (at level 100, r at next level, right associativity).

(** ** Result records *)

(** The [debug_scores] dictionary. *)
Module Debug.
Record t : Type := Build {
  vector_score : R;
  color_score : R;
  category_score : R;
  text_score : R;
  final_score : R
}.
End Debug.

(** A result dictionary: the eight keys of [SearchResult.to_dict], whose
    values may be [None], and the two keys re-ranking adds, which may be
    absent. *)
Module ResultDict.
Record t : Type := Build {
  product_id : option string;
  title : option string;
  description : option string;
  color : option string;
  category : option string;
  image_path : option string;
  similarity : option R;
  distance : option R;
  final_score : option R;
  debug_scores : option Debug.t
}.

(** [rd["final_score"] = score] *)
Definition set_final_score (score : R) (rd : t) : t :=
  Build (product_id rd) (title rd) (description rd) (color rd) (category rd)
        (image_path rd) (similarity rd) (distance rd) (Some score)
        (debug_scores rd).

(** [rd["debug_scores"] = d] *)
Definition set_debug_scores (d : Debug.t) (rd : t) : t :=
  Build (product_id rd) (title rd) (description rd) (color rd) (category rd)
        (image_path rd) (similarity rd) (distance rd) (final_score rd)
        (Some d).
End ResultDict.

(** An object with the attributes of [services.search_service.SearchResult]. *)
Module SearchResult.
Record t : Type := Build {
  product_id : option string;
  title : option string;
  description : option string;
  color : option string;
  category : option string;
  image_path : option string;
  similarity : option R;
  distance : option R;
  debug_scores : option Debug.t
}.
End SearchResult.

(** ** services/ranking.py *)

Module Ranking.

Local Open Scope string_scope.

(** *** Strings *)

(** The class [[a-z0-9]] of the token pattern. *)
Definition is_token_char (c : ascii) : bool :=
  let n := N_of_ascii c in
  (((97 <=? n) && (n <=? 122)) || ((48 <=? n) && (n <=? 57)))%N.

(** [str.lower] on one code point below 256: [A-Z] and the upper-case
    Latin-1 letters (U+00C0..U+00DE without the multiplication sign). *)
Definition lower_char (c : ascii) : ascii :=
  let n := N_of_ascii c in
  if (((65 <=? n) && (n <=? 90))
      || ((192 <=? n) && (n <=? 222) && negb (n =? 215)))%N
  then ascii_of_N (n + 32)
  else c.

Fixpoint lower (s : string) : string :=
  match s with
  | EmptyString => EmptyString
  | String c s' => String (lower_char c) (lower s')
  end.

(** [str.isspace] on one code point below 256. *)
Definition is_space (c : ascii) : bool :=
  let n := N_of_ascii c in
  (((9 <=? n) && (n <=? 13)) || ((28 <=? n) && (n <=? 32))
   || (n =? 133) || (n =? 160))%N.

Fixpoint lstrip (s : string) : string :=
  match s with
  | EmptyString => EmptyString
  | String c s' => if is_space c then lstrip s' else s
  end.

Fixpoint rstrip (s : string) : string :=
  match s with
  | EmptyString => EmptyString
  | String c s' =>
      match rstrip s' with
      | EmptyString => if is_space c then EmptyString else String c EmptyString
      | r => String c r
      end
  end.

Definition strip (s : string) : string := rstrip (lstrip s).

(** [re.findall(r"[a-z0-9]+", s)]: the maximal runs of token characters,
    left to right; [cur] is the run being read. *)
Fixpoint findall_runs (cur s : string) : list string :=
  match s with
  | EmptyString =>
      match cur with EmptyString => [] | _ => [cur] end
  | String c s' =>
      if is_token_char c then findall_runs (cur ++ String c EmptyString) s'
      else match cur with
           | EmptyString => findall_runs EmptyString s'
           | _ => cur :: findall_runs EmptyString s'
           end
  end.

Definition _tokenize (text : string) : list string :=
  match text with
  | EmptyString => []
  | _ => findall_runs EmptyString (lower text)
  end.

(** *** Bag of words *)

Definition bow_step (freq : gmap string Z) (t : string) : gmap string Z :=
  <[t := (default 0 (freq !! t) + 1)%Z]> freq.

Definition _bow (text : string) : gmap string Z :=
  foldl bow_step ∅ (_tokenize text).

(** [sum(g(k, v) for k, v in d.items())] over Python integers. *)
Definition dict_sum (g : string -> Z -> Z) (d : gmap string Z) : Z :=
  map_fold (fun k v acc => (acc + g k v)%Z) 0%Z d.

(** One term of the dot product: [va * vb] when [freq_b.get(k)] is truthy. *)
Definition dot_term (freq_b : gmap string Z) (k : string) (va : Z) : Z :=
  match freq_b !! k with
  | Some vb => if (vb =? 0)%Z then 0%Z else (va * vb)%Z
  | None => 0%Z
  end.

Definition dot_product (freq_a freq_b : gmap string Z) : Z :=
  dict_sum (dot_term freq_b) freq_a.

Definition sum_squares (freq : gmap string Z) : Z :=
  dict_sum (fun _ v => (v * v)%Z) freq.

Definition _cosine_sim (freq_a freq_b : gmap string Z) : R :=
  if bool_decide (freq_a = ∅) || bool_decide (freq_b = ∅) then 0%R
  else
    let dot := dot_product freq_a freq_b in
    let na := sqrt (IZR (sum_squares freq_a)) in
    let nb := sqrt (IZR (sum_squares freq_b)) in
    if Req_dec_T na 0 then 0%R
    else if Req_dec_T nb 0 then 0%R
    else (IZR dot / (na * nb))%R.

(** [not s] for an [Optional[str]]: [None] or the empty string. *)
Definition falsy (s : option string) : bool :=
  match s with
  | None | Some EmptyString => true
  | Some _ => false
  end.

Definition text_similarity (query_text title : option string) : R :=
  match query_text, title with
  | Some q, Some t =>
      if falsy query_text || falsy title then 0%R
      else _cosine_sim (_bow q) (_bow t)
  | _, _ => 0%R
  end.

Definition exact_match_boost (a b : option string) : R :=
  match a, b with
  | Some sa, Some sb =>
      if falsy a || falsy b then 0%R
      else if String.eqb (lower (strip sa)) (lower (strip sb)) then 1%R
      else 0%R
  | _, _ => 0%R
  end.

(** *** The weighted score *)

Definition default_weights : gmap string R :=
  <["vector" := (5 / 10)%R]> (<["color" := (2 / 10)%R]>
  (<["category" := (2 / 10)%R]> (<["text" := (1 / 10)%R]> ∅))).

(** [w.update(weights)] when [weights] is given and not empty. *)
Definition effective_weights (weights : option (gmap string R))
  : gmap string R :=
  match weights with
  | Some ws => ws ∪ default_weights
  | None => default_weights
  end.

(** [w[k]]; the four keys read below are always present. *)
Definition weight (w : gmap string R) (k : string) : R :=
  default 0%R (w !! k).

Definition compute_final_score (vector_sim : option R)
    (color_match category_match text_sim : R)
    (weights : option (gmap string R)) : R :=
  let w := effective_weights weights in
  let v := match vector_sim with Some x => x | None => 0%R end in
  let score :=
    (weight w "vector" * v
     + weight w "color" * color_match
     + weight w "category" * category_match
     + weight w "text" * text_sim)%R in
  Rmax 0 (Rmin 1 score).

(** *** Re-ranking *)

(** An element of the [results] argument: a dict or an object. *)
Inductive result_like : Type :=
| IsDict (d : ResultDict.t)
| IsObject (o : SearchResult.t).

Definition _result_to_dict (result : result_like) : ResultDict.t :=
  match result with
  | IsDict d => d
  | IsObject o =>
      ResultDict.Build
        (SearchResult.product_id o) (SearchResult.title o)
        (SearchResult.description o) (SearchResult.color o)
        (SearchResult.category o) (SearchResult.image_path o)
        (SearchResult.similarity o) (SearchResult.distance o)
        None None
  end.

(** [list.sort(key=..., reverse=True)] on (score, dict) pairs: a stable
    sort, larger keys first, equal keys in their original order.  An
    element is put in front of the first element whose key is not strictly
    larger. *)
Fixpoint insert_desc {A} (x : R * A) (l : list (R * A)) : list (R * A) :=
  match l with
  | [] => [x]
  | y :: l' =>
      if Rlt_dec (fst x) (fst y) then y :: insert_desc x l' else x :: l
  end.

Definition sort_desc {A} (l : list (R * A)) : list (R * A) :=
  foldr insert_desc [] l.

Section Rerank.

Variables (query_text query_color query_category : option string).
Variable weights : option (gmap string R).
Variables (add_score_field add_debug_scores : bool).

(** The score of one result dictionary. *)
Definition score_of (rd : ResultDict.t) : R :=
  compute_final_score
    (ResultDict.similarity rd)
    (exact_match_boost query_color (ResultDict.color rd))
    (exact_match_boost query_category (ResultDict.category rd))
    (text_similarity query_text (ResultDict.title rd))
    weights.

Definition debug_of (rd : ResultDict.t) : Debug.t :=
  Debug.Build
    (match ResultDict.similarity rd with Some x => x | None => 0%R end)
    (exact_match_boost query_color (ResultDict.color rd))
    (exact_match_boost query_category (ResultDict.category rd))
    (text_similarity query_text (ResultDict.title rd))
    (score_of rd).

(** The body of the loop: the pair appended to [scored]. *)
Definition score_one (res : result_like) : R * ResultDict.t :=
  let rd := _result_to_dict res in
  let score := score_of rd in
  let debug := debug_of rd in
  let rd1 :=
    if add_score_field then ResultDict.set_final_score score rd else rd in
  let rd2 :=
    if add_debug_scores then ResultDict.set_debug_scores debug rd1
    else rd1 in
  (score, rd2).

Definition rerank_results (results : list result_like)
  : list ResultDict.t :=
  map snd (sort_desc (map score_one results)).

End Rerank.

End Ranking.

(** ** services/search_service.py *)

Module SearchService.

Local Open Scope string_scope.

(** *** Embedding fusion *)

(** An element of a float64 array that a division produced: numpy divides
    by zero without raising, giving [nan] for 0/0 and an infinity
    otherwise. *)
Inductive float64 : Type :=
| Finite (x : R)
| PosInf
| NegInf
| NaN.

Definition np_divide (x n : R) : float64 :=
  if Req_dec_T n 0 then
    if Req_dec_T x 0 then NaN
    else if Rlt_dec 0 x then PosInf else NegInf
  else Finite (x / n).

(** [w * vec] *)
Definition np_scale (w : R) (vec : list R) : list R := map (Rmult w) vec.

(** [a + b] on one-dimensional arrays: element-wise, an array of one
    element being broadcast; other shapes do not combine. *)
Definition np_add (a b : list R) : result (list R) :=
  if Nat.eqb (length a) (length b) then Return (zip_with Rplus a b)
  else
    match a, b with
    | [x], _ => Return (map (Rplus x) b)
    | _, [y] => Return (map (fun x => (x + y)%R) a)
    | _, _ => Raise (ValueError "operands could not be broadcast together")
    end.

Definition sum_of_squares (vec : list R) : R :=
  foldr (fun x acc => (x * x + acc)%R) 0%R vec.

(** [np.linalg.norm(vec)] *)
Definition np_linalg_norm (vec : list R) : R := sqrt (sum_of_squares vec).

Definition no_vector_message : string :=
  "At least one of image_vec or text_vec must be provided".

(** [fused / np.linalg.norm(fused)] *)
Definition normalize (fused : list R) : list float64 :=
  let norm := np_linalg_norm fused in
  map (fun x => np_divide x norm) fused.

Definition fuse_embeddings (image_vec text_vec : option (list R))
    (image_weight text_weight : R) : result (list float64) :=
  match image_vec, text_vec with
  | None, None => Raise (ValueError no_vector_message)
  | Some iv, Some tv =>
      fused <- np_add (np_scale image_weight iv) (np_scale text_weight tv);;
      Return (normalize fused)
  | Some iv, None => Return (normalize iv)
  | None, Some tv => Return (normalize tv)
  end.

(** *** Vector search *)

(** One hit of the vector index, as the Weaviate client returns it. *)
Record RawResult : Type := {
  raw_product_id : option string;
  raw_title : option string;
  raw_description : option string;
  raw_color : option string;
  raw_category : option string;
  raw_image_path : option string;
  raw_distance : R;
  raw_similarity : R
}.

(** The collaborators of the service: the CLIP embedding of a text and the
    vector index, called with the query vector, the limit and the category
    and color filters. *)
Record Backend : Type := {
  embed_text : string -> result (list R);
  client_search_by_vector :
    list R -> Z -> option string -> option string -> result (list RawResult)
}.

(** [SearchResult(product_data=raw["properties"], similarity, distance)] *)
Definition result_of_raw (raw : RawResult) : SearchResult.t :=
  SearchResult.Build
    (raw_product_id raw) (raw_title raw) (raw_description raw)
    (raw_color raw) (raw_category raw) (raw_image_path raw)
    (Some (raw_similarity raw)) (Some (raw_distance raw)) None.

Definition to_dict (r : SearchResult.t) : ResultDict.t :=
  ResultDict.Build
    (SearchResult.product_id r) (SearchResult.title r)
    (SearchResult.description r) (SearchResult.color r)
    (SearchResult.category r) (SearchResult.image_path r)
    (SearchResult.similarity r) (SearchResult.distance r)
    None (SearchResult.debug_scores r).

(** [l[:k]] *)
Definition slice_to {A} (k : Z) (l : list A) : list A :=
  if (0 <=? k)%Z then take (Z.to_nat k) l
  else take (length l - Z.to_nat (- k)) l.

(** A filter argument counts when it is neither [None] nor empty. *)
Definition given (f : option string) : option string :=
  if Ranking.falsy f then None else f.

(** The client-side check of one hit against a filter. *)
Definition passes (f actual : option string) : bool :=
  match given f with
  | Some _ => bool_decide (actual = f)
  | None => true
  end.

Definition search_by_vector (be : Backend) (query_vector : list R)
    (top_k : Z) (category_filter color_filter : option string)
  : result (list SearchResult.t) :=
  raw_results <-
    client_search_by_vector be query_vector top_k
      (given category_filter) (given color_filter);;
  let results :=
    map result_of_raw
      (List.filter
         (fun raw =>
            passes category_filter (raw_category raw)
            && passes color_filter (raw_color raw))
         raw_results) in
  Return (slice_to top_k results).

(** [SearchResult(product_data=rd,
      similarity=rd.get("final_score", rd.get("similarity", 0.0)),
      distance=rd.get("distance", 0.0))], with the debug scores kept. *)
Definition result_of_reranked (rd : ResultDict.t) : SearchResult.t :=
  SearchResult.Build
    (ResultDict.product_id rd) (ResultDict.title rd)
    (ResultDict.description rd) (ResultDict.color rd)
    (ResultDict.category rd) (ResultDict.image_path rd)
    (match ResultDict.final_score rd with
     | Some s => Some s
     | None => ResultDict.similarity rd
     end)
    (ResultDict.distance rd)
    (ResultDict.debug_scores rd).

Definition fetch_limit (enable_reranking : bool) (top_k : Z) : Z :=
  if enable_reranking then Z.max 30 (top_k * 3) else top_k.

Definition search_by_text (be : Backend) (query_text : string) (top_k : Z)
    (category_filter color_filter : option string)
    (enable_reranking enable_debug : bool)
  : result (list SearchResult.t) :=
  query_vector <- embed_text be query_text;;
  initial_results <-
    search_by_vector be query_vector (fetch_limit enable_reranking top_k)
      category_filter color_filter;;
  if negb enable_reranking || Nat.eqb (length initial_results) 0
  then Return (slice_to top_k initial_results)
  else
    let result_dicts := map to_dict initial_results in
    let reranked_dicts :=
      Ranking.rerank_results (Some query_text) color_filter category_filter
        None true enable_debug (map Ranking.IsDict result_dicts) in
    Return (map result_of_reranked (slice_to top_k reranked_dicts)).

(** *** Image and multimodal search *)

(** The collaborators of the image and multimodal searches: those of the
    text search, the CLIP embedding of an image file, and the vector index
    called with a fused vector, whose components are the results of a
    division. *)
Record MultimodalBackend : Type := {
  text_backend : Backend;
  embed_image : string -> result (list R);
  client_search_by_fused :
    list float64 -> Z -> option string -> option string
    -> result (list RawResult)
}.

(** [search_by_vector] for a query vector of any element type. *)
Definition search_by_vector_with {V : Type}
    (client : V -> Z -> option string -> option string
              -> result (list RawResult))
    (query_vector : V) (top_k : Z)
    (category_filter color_filter : option string)
  : result (list SearchResult.t) :=
  raw_results <-
    client query_vector top_k (given category_filter) (given color_filter);;
  let results :=
    map result_of_raw
      (List.filter
         (fun raw =>
            passes category_filter (raw_category raw)
            && passes color_filter (raw_color raw))
         raw_results) in
  Return (slice_to top_k results).

Definition search_by_image (mb : MultimodalBackend) (image_path : string)
    (top_k : Z) (category_filter color_filter : option string)
    (enable_reranking enable_debug : bool)
  : result (list SearchResult.t) :=
  query_vector <- embed_image mb image_path;;
  initial_results <-
    search_by_vector (text_backend mb) query_vector
      (fetch_limit enable_reranking top_k) category_filter color_filter;;
  if negb enable_reranking || Nat.eqb (length initial_results) 0
  then Return (slice_to top_k initial_results)
  else
    let result_dicts := map to_dict initial_results in
    let reranked_dicts :=
      Ranking.rerank_results None color_filter category_filter
        None true enable_debug (map Ranking.IsDict result_dicts) in
    Return (map result_of_reranked (slice_to top_k reranked_dicts)).

Definition no_query_message : string :=
  "Must provide at least one of text_query or image_path".

Definition search_multimodal (mb : MultimodalBackend)
    (text_query image_path : option string) (image_weight text_weight : R)
    (top_k : Z) (category_filter color_filter : option string)
    (enable_reranking enable_debug : bool)
  : result (list SearchResult.t) :=
  match text_query, image_path with
  | None, None => Raise (ValueError no_query_message)
  | _, _ =>
      text_vec <-
        match given text_query with
        | Some q => v <- embed_text (text_backend mb) q;; Return (Some v)
        | None => Return None
        end;;
      image_vec <-
        match given image_path with
        | Some p => v <- embed_image mb p;; Return (Some v)
        | None => Return None
        end;;
      fused_vector <-
        fuse_embeddings image_vec text_vec image_weight text_weight;;
      initial_results <-
        search_by_vector_with (client_search_by_fused mb) fused_vector
          (fetch_limit enable_reranking top_k) category_filter color_filter;;
      if negb enable_reranking || Nat.eqb (length initial_results) 0
      then Return (slice_to top_k initial_results)
      else
        let result_dicts := map to_dict initial_results in
        let reranked_dicts :=
          Ranking.rerank_results text_query color_filter category_filter
            None true enable_debug (map Ranking.IsDict result_dicts) in
        Return (map result_of_reranked (slice_to top_k reranked_dicts))
  end.

End SearchService.

(** ** services/ab_testing.py *)

Module ABTesting.

Local Open Scope string_scope.

Inductive ExperimentVariant : Type :=
| SEARCH_V1
| SEARCH_V2.

#[global] Instance ExperimentVariant_eq_dec : EqDecision ExperimentVariant.
Proof. solve_decision. Defined.

(** [variant.value] *)
Definition value (v : ExperimentVariant) : string :=
  match v with
  | SEARCH_V1 => "search_v1"
  | SEARCH_V2 => "search_v2"
  end.

(** A [datetime] is its number of microseconds since the epoch. *)
Definition datetime : Type := Z.

Module ExperimentAssignment.
Record t : Type := Build {
  user_id : string;
  variant : ExperimentVariant;
  assigned_at : datetime;
  metadata : gmap string string
}.
End ExperimentAssignment.

Module ExperimentEvent.
(** The fields of the base class. *)
Record base : Type := Base {
  user_id : string;
  variant : ExperimentVariant;
  timestamp : datetime;
  query : option string;
  session_id : option string;
  metadata : gmap string string
}.

(** An event: of the base class, a [SearchEvent] or a [ClickEvent]. *)
Inductive t : Type :=
| Plain (b : base)
| SearchEvent (b : base) (results_count : Z) (search_time_ms : Q)
    (event_type : string)
| ClickEvent (b : base) (product_id product_title : string) (position : Z)
    (event_type : string).

Definition base_of (e : t) : base :=
  match e with
  | Plain b | SearchEvent b _ _ _ | ClickEvent b _ _ _ _ => b
  end.

(** [getattr(e, 'event_type', None)] *)
Definition event_type_of (e : t) : option string :=
  match e with
  | Plain _ => None
  | SearchEvent _ _ _ ty | ClickEvent _ _ _ _ ty => Some ty
  end.

Definition is_search (e : t) : bool :=
  match e with SearchEvent _ _ _ _ => true | _ => false end.

Definition is_click (e : t) : bool :=
  match e with ClickEvent _ _ _ _ _ => true | _ => false end.
End ExperimentEvent.

(** The manager.  [_redis] is the Redis server seen as a table of the
    assignments stored under their keys; the expiry of its keys is not
    modelled. *)
Record ExperimentManager : Type := {
  variants : list ExperimentVariant;
  split_ratio : Q;
  storage_backend : string;
  _assignments : gmap string ExperimentAssignment.t;
  _events : list ExperimentEvent.t;
  _redis : gmap string ExperimentAssignment.t
}.

(** [ExperimentManager(variants, split_ratio, storage_backend)];
    [redis_reachable] says whether the connection of [_init_redis]
    succeeds. *)
Definition init (variants : option (list ExperimentVariant))
    (split_ratio : Q) (storage_backend : string) (redis_reachable : bool)
  : ExperimentManager :=
  {| variants :=
       match variants with
       | Some (v :: vs) => v :: vs
       | _ => [SEARCH_V1; SEARCH_V2]
       end;
     split_ratio := split_ratio;
     storage_backend :=
       if String.eqb storage_backend "redis" && negb redis_reachable
       then "memory" else storage_backend;
     _assignments := ∅;
     _events := [];
     _redis := ∅ |}.

Definition assignment_key (user_id : string) : string :=
  "ab:assignment:" ++ user_id.

Definition get_assignment (self : ExperimentManager) (user_id : string)
  : option ExperimentAssignment.t :=
  if String.eqb (storage_backend self) "memory" then
    _assignments self !! user_id
  else if String.eqb (storage_backend self) "redis" then
    _redis self !! assignment_key user_id
  else None.

Definition _store_assignment (self : ExperimentManager)
    (assignment : ExperimentAssignment.t) : ExperimentManager :=
  let uid := ExperimentAssignment.user_id assignment in
  if String.eqb (storage_backend self) "memory" then
    {| variants := variants self; split_ratio := split_ratio self;
       storage_backend := storage_backend self;
       _assignments := <[uid := assignment]> (_assignments self);
       _events := _events self; _redis := _redis self |}
  else if String.eqb (storage_backend self) "redis" then
    {| variants := variants self; split_ratio := split_ratio self;
       storage_backend := storage_backend self;
       _assignments := _assignments self;
       _events := _events self;
       _redis := <[assignment_key uid := assignment]> (_redis self) |}
  else self.

(** [assign_variant(user_id, metadata)]; [rand] is the value
    [random.random()] returns and [now] the one of [datetime.utcnow()]. *)
Definition assign_variant (self : ExperimentManager) (user_id : string)
    (metadata : option (gmap string string)) (rand : Q) (now : datetime)
  : result (ExperimentAssignment.t * ExperimentManager) :=
  match get_assignment self user_id with
  | Some existing => Return (existing, self)
  | None =>
      let index := if Qle_bool (split_ratio self) rand then 1%nat else 0%nat in
      match variants self !! index with
      | None => Raise (IndexError "list index out of range")
      | Some variant =>
          let assignment :=
            ExperimentAssignment.Build user_id variant now
              (default ∅ metadata) in
          Return (assignment, _store_assignment self assignment)
      end
  end.

(** [log_event(event)]: the in-memory log; the line written to the log
    file and the copy pushed to Redis are never read back here. *)
Definition log_event (self : ExperimentManager) (event : ExperimentEvent.t)
  : ExperimentManager :=
  {| variants := variants self; split_ratio := split_ratio self;
     storage_backend := storage_backend self;
     _assignments := _assignments self;
     _events := _events self ++ [event]; _redis := _redis self |}.

(** [self.get_assignment(user_id) or self.assign_variant(user_id)] *)
Definition assignment_for (self : ExperimentManager) (user_id : string)
    (rand : Q) (now : datetime)
  : result (ExperimentAssignment.t * ExperimentManager) :=
  match get_assignment self user_id with
  | Some a => Return (a, self)
  | None => assign_variant self user_id None rand now
  end.

(** [log_search]; [stamp] is the time the event is created. *)
Definition log_search (self : ExperimentManager) (user_id query : string)
    (results_count : Z) (search_time_ms : Q) (session_id : option string)
    (rand : Q) (now stamp : datetime)
  : result (ExperimentEvent.t * ExperimentManager) :=
  am <- assignment_for self user_id rand now;;
  let event :=
    ExperimentEvent.SearchEvent
      (ExperimentEvent.Base user_id (ExperimentAssignment.variant (fst am))
         stamp (Some query) session_id ∅)
      results_count search_time_ms "search" in
  Return (event, log_event (snd am) event).

Definition log_click (self : ExperimentManager) (user_id product_id : string)
    (product_title : string) (position : Z) (query session_id : option string)
    (rand : Q) (now stamp : datetime)
  : result (ExperimentEvent.t * ExperimentManager) :=
  am <- assignment_for self user_id rand now;;
  let event :=
    ExperimentEvent.ClickEvent
      (ExperimentEvent.Base user_id (ExperimentAssignment.variant (fst am))
         stamp query session_id ∅)
      product_id product_title position "click" in
  Return (event, log_event (snd am) event).

(** [l[start:]] *)
Definition slice_from {A} (start : Z) (l : list A) : list A :=
  if (0 <=? start)%Z then drop (Z.to_nat start) l
  else drop (length l - Z.to_nat (- start)) l.

Definition get_events (self : ExperimentManager) (user_id : option string)
    (variant : option ExperimentVariant) (event_type : option string)
    (limit : Z) : list ExperimentEvent.t :=
  let events := _events self in
  let events :=
    match user_id with
    | Some (String _ _ as u) =>
        List.filter
          (fun e => String.eqb (ExperimentEvent.user_id
                                  (ExperimentEvent.base_of e)) u)
          events
    | _ => events
    end in
  let events :=
    match variant with
    | Some v =>
        List.filter
          (fun e => bool_decide (ExperimentEvent.variant
                                   (ExperimentEvent.base_of e) = v))
          events
    | None => events
    end in
  let events :=
    match event_type with
    | Some (String _ _ as ty) =>
        List.filter
          (fun e => bool_decide (ExperimentEvent.event_type_of e = Some ty))
          events
    | _ => events
    end in
  slice_from (- limit) events.

(** The entry of one variant in the metrics. *)
Record VariantMetrics : Type := {
  count : nat;
  clicks : nat;
  ctr : Q
}.

Record Metrics : Type := {
  total_events : nat;
  total_assignments : nat;
  search_events : nat;
  click_events : nat;
  search_v1 : VariantMetrics;
  search_v2 : VariantMetrics;
  avg_search_time_ms : Q;
  avg_results : Q
}.

(** [a / b if b > 0 else 0] *)
Definition ratio_or_zero (a : Q) (b : nat) : Q :=
  if (0 <? b)%nat then (a / inject_Z (Z.of_nat b))%Q else 0%Q.

Definition count_variant (v : ExperimentVariant)
    (events : list ExperimentEvent.t) : nat :=
  length
    (List.filter
       (fun e => bool_decide (ExperimentEvent.variant
                                (ExperimentEvent.base_of e) = v))
       events).

Definition search_time_of (e : ExperimentEvent.t) : Q :=
  match e with ExperimentEvent.SearchEvent _ _ t _ => t | _ => 0%Q end.

Definition results_count_of (e : ExperimentEvent.t) : Z :=
  match e with ExperimentEvent.SearchEvent _ n _ _ => n | _ => 0%Z end.

Definition get_metrics (self : ExperimentManager) : Metrics :=
  let search_events := List.filter ExperimentEvent.is_search (_events self) in
  let click_events := List.filter ExperimentEvent.is_click (_events self) in
  let v1_searches := count_variant SEARCH_V1 search_events in
  let v2_searches := count_variant SEARCH_V2 search_events in
  let v1_clicks := count_variant SEARCH_V1 click_events in
  let v2_clicks := count_variant SEARCH_V2 click_events in
  {| total_events := length (_events self);
     total_assignments := size (_assignments self);
     search_events := length search_events;
     click_events := length click_events;
     search_v1 :=
       {| count := v1_searches; clicks := v1_clicks;
          ctr := ratio_or_zero (inject_Z (Z.of_nat v1_clicks)) v1_searches |};
     search_v2 :=
       {| count := v2_searches; clicks := v2_clicks;
          ctr := ratio_or_zero (inject_Z (Z.of_nat v2_clicks)) v2_searches |};
     avg_search_time_ms :=
       ratio_or_zero
         (foldr Qplus 0%Q (map search_time_of search_events))
         (length search_events);
     avg_results :=
       ratio_or_zero
         (inject_Z (foldr Z.add 0%Z (map results_count_of search_events)))
         (length search_events) |}.

Definition reset (self : ExperimentManager) : ExperimentManager :=
  {| variants := variants self; split_ratio := split_ratio self;
     storage_backend := storage_backend self;
     _assignments := ∅; _events := []; _redis := _redis self |}.

End ABTesting.

(** ** services/search_variants.py *)

Module SearchVariants.

Local Open Scope string_scope.

(** [models.search.ProductResult]: every field but [debug_scores] is
    required. *)
Record ProductResult : Type := {
  product_id : string;
  title : string;
  description : string;
  color : string;
  category : string;
  image_path : string;
  similarity : R;
  distance : R;
  debug_scores : option Debug.t
}.

(** [ProductResult(product_id=r.product_id, ...)]: the validation refuses
    a missing value with a [ValidationError], which is a [ValueError]. *)
Definition product_result_of (r : SearchResult.t) : result ProductResult :=
  match SearchResult.product_id r, SearchResult.title r,
        SearchResult.description r, SearchResult.color r,
        SearchResult.category r, SearchResult.image_path r,
        SearchResult.similarity r, SearchResult.distance r with
  | Some pid, Some ti, Some de, Some co, Some ca, Some im, Some si, Some di =>
      Return {| product_id := pid; title := ti; description := de;
                color := co; category := ca; image_path := im;
                similarity := si; distance := di;
                debug_scores := SearchResult.debug_scores r |}
  | _, _, _, _, _, _, _, _ =>
      Raise (ValueError "validation error for ProductResult")
  end.

Fixpoint product_results_of (rs : list SearchResult.t)
  : result (list ProductResult) :=
  match rs with
  | [] => Return []
  | r :: rs' =>
      p <- product_result_of r;;
      ps <- product_results_of rs';;
      Return (p :: ps)
  end.

(** The body of a variant: the search of the service with re-ranking
    switched by [enable_reranking], then the conversion. *)
Definition run_search (be : SearchService.Backend) (enable_reranking : bool)
    (query_text : string) (top_k : Z)
    (category_filter color_filter : option string) (debug : bool)
  : result (list ProductResult) :=
  results <-
    SearchService.search_by_text be query_text top_k category_filter
      color_filter enable_reranking debug;;
  product_results_of results.

(** [except Exception as e: raise Exception(f"<prefix>: {str(e)}")];
    [elapsed_ms] is the time the clock measured. *)
Definition guarded (prefix : string) (elapsed_ms : Q)
    (r : result (list ProductResult)) : result (list ProductResult * Q) :=
  match r with
  | Return product_results => Return (product_results, elapsed_ms)
  | Raise e => Raise (Exception (prefix ++ ": " ++ exn_str e))
  end.

Module SearchVariantV1.
Definition search_by_text (be : SearchService.Backend) (query_text : string)
    (top_k : Z) (category_filter color_filter : option string) (debug : bool)
    (elapsed_ms : Q) : result (list ProductResult * Q) :=
  guarded "V1 search failed" elapsed_ms
    (run_search be false query_text top_k category_filter color_filter debug).
End SearchVariantV1.

Module SearchVariantV2.
Definition search_by_text (be : SearchService.Backend) (query_text : string)
    (top_k : Z) (category_filter color_filter : option string) (debug : bool)
    (elapsed_ms : Q) : result (list ProductResult * Q) :=
  guarded "V2 search failed" elapsed_ms
    (run_search be true query_text top_k category_filter color_filter debug).
End SearchVariantV2.

(** The classes [SEARCH_VARIANTS] maps the names to. *)
Inductive search_variant : Type :=
| V1
| V2.

Definition get_search_variant (variant_name : string)
  : result search_variant :=
  if String.eqb variant_name "search_v1" then Return V1
  else if String.eqb variant_name "search_v2" then Return V2
  else Raise (ValueError ("Unknown search variant: " ++ variant_name)).

Definition search_by_text_of (sv : search_variant) :=
  match sv with
  | V1 => SearchVariantV1.search_by_text
  | V2 => SearchVariantV2.search_by_text
  end.

End SearchVariants.

(** ** api/ab_search.py *)

Module ABSearch.

Local Open Scope string_scope.

Record SearchResponse : Type := {
  query : string;
  results : list SearchVariants.ProductResult;
  total_results : nat
}.

(** What the clock and the random generator give during one request. *)
Record Env : Type := {
  elapsed_ms : Q;
  rand : Q;
  now : ABTesting.datetime;
  stamp : ABTesting.datetime
}.

(** The body of the [try] of [search_by_text_ab]. *)
Definition try_search (be : SearchService.Backend)
    (manager : ABTesting.ExperimentManager) (env : Env)
    (variant user_id : string) (session_id : option string)
    (query : string) (top_k : Z) (category color : option string)
    (debug : bool)
  : result (SearchResponse * ABTesting.ExperimentManager) :=
  search_variant <- SearchVariants.get_search_variant variant;;
  found <-
    SearchVariants.search_by_text_of search_variant be query top_k category
      color debug (elapsed_ms env);;
  logged <-
    ABTesting.log_search manager user_id query
      (Z.of_nat (length (fst found))) (snd found) session_id
      (rand env) (now env) (stamp env);;
  Return ({| query := query; results := fst found;
             total_results := length (fst found) |}, snd logged).

(** [POST /search-ab/text].  The declared bounds of [query] and [top_k]
    are checked before the body runs; in the body a [ValueError] becomes
    the status 400 and any other exception the status 500. *)
Definition search_by_text_ab (be : SearchService.Backend)
    (manager : ABTesting.ExperimentManager) (env : Env)
    (variant user_id : string) (session_id : option string)
    (query : string) (top_k : Z) (category color : option string)
    (debug : bool)
  : result (SearchResponse * ABTesting.ExperimentManager) :=
  if Nat.ltb (String.length query) 1 || (top_k <? 1)%Z || (100 <? top_k)%Z
  then Raise (HTTPException 422 "validation error")
  else
    match try_search be manager env variant user_id session_id query top_k
            category color debug with
    | Return r => Return r
    | Raise (ValueError m) =>
        Raise (HTTPException 400 ("Invalid variant: " ++ m))
    | Raise e => Raise (HTTPException 500 ("Search failed: " ++ exn_str e))
    end.

End ABSearch.

(** ** api/ab_middleware.py *)

Module ABMiddleware.

Local Open Scope string_scope.

(** What the middleware reads of a request: [request.headers] and
    [request.cookies], each as the lookup of a name ([name in ...] is
    [Some], [...[name]] the value). *)
Record Request : Type := {
  headers : string -> option string;
  cookies : string -> option string
}.

(** The attributes [dispatch] sets on [request.state]. *)
Record RequestState : Type := {
  user_id : string;
  variant : ABTesting.ExperimentVariant;
  session_id : string;
  ab_assignment : ABTesting.ExperimentAssignment.t
}.

(** A response: its body and its headers. *)
Record Response (Body : Type) : Type := {
  body : Body;
  response_headers : gmap string string
}.
Arguments body {Body} _.
Arguments response_headers {Body} _.

Record ABTestingMiddleware : Type := {
  user_id_header : string;
  session_id_header : string
}.

(** [ABTestingMiddleware(app)] with the default header names. *)
Definition default_middleware : ABTestingMiddleware :=
  {| user_id_header := "X-User-ID"; session_id_header := "X-Session-ID" |}.

(** [_extract_user_id]; [uuid4] is the value [str(uuid.uuid4())] gives
    when it is called. *)
Definition _extract_user_id (self : ABTestingMiddleware) (request : Request)
    (uuid4 : string) : string :=
  match headers request (user_id_header self) with
  | Some v => v
  | None =>
      match cookies request "user_id" with
      | Some v => v
      | None => uuid4
      end
  end.

Definition _extract_session_id (self : ABTestingMiddleware)
    (request : Request) (uuid4 : string) : string :=
  match headers request (session_id_header self) with
  | Some v => v
  | None =>
      match cookies request "session_id" with
      | Some v => v
      | None => uuid4
      end
  end.

(** [dispatch(request, call_next)]; [call_next] is the rest of the
    application, run on the request state and the experiment manager.  A
    request that the application answers with an error status is a
    [Raise] here: the headers the middleware sets on such an answer are
    not modelled. *)
Definition dispatch {Body : Type} (self : ABTestingMiddleware)
    (manager : ABTesting.ExperimentManager) (request : Request)
    (call_next : RequestState -> ABTesting.ExperimentManager
                 -> result (Response Body * ABTesting.ExperimentManager))
    (user_uuid4 session_uuid4 : string) (rand : Q)
    (now : ABTesting.datetime)
  : result (Response Body * ABTesting.ExperimentManager) :=
  let user_id := _extract_user_id self request user_uuid4 in
  let session_id := _extract_session_id self request session_uuid4 in
  am <- ABTesting.assign_variant manager user_id None rand now;;
  let assignment := fst am in
  let state :=
    {| user_id := user_id;
       variant := ABTesting.ExperimentAssignment.variant assignment;
       session_id := session_id;
       ab_assignment := assignment |} in
  rm <- call_next state (snd am);;
  let response := fst rm in
  Return
    ({| body := body response;
        response_headers :=
          <["X-Session-ID" := session_id]>
            (<["X-User-ID" := user_id]>
               (<["X-Variant" :=
                    ABTesting.value
                      (ABTesting.ExperimentAssignment.variant assignment)]>
                  (response_headers response))) |},
     snd rm).

(** [getattr(request.state, 'variant', ExperimentVariant.SEARCH_V1).value];
    the state is [None] when the middleware did not run. *)
Definition inject_variant (state : option RequestState) : string :=
  ABTesting.value
    (match state with
     | Some st => variant st
     | None => ABTesting.SEARCH_V1
     end).

(** [getattr(request.state, 'user_id', 'anonymous')] *)
Definition get_user_id (state : option RequestState) : string :=
  match state with
  | Some st => user_id st
  | None => "anonymous"
  end.

(** [getattr(request.state, 'session_id', '')] *)
Definition get_session_id (state : option RequestState) : string :=
  match state with
  | Some st => session_id st
  | None => ""
  end.

End ABMiddleware.

(** ** services/click_tracking.py *)

Module ClickTracking.

Local Open Scope string_scope.

Module ClickEvent.
Record t : Type := Build {
  user_id : string;
  product_id : string;
  rank : Z;
  search_query : string;
  variant : string;
  response_time_ms : Q;
  session_id : option string;
  source : string;
  timestamp : ABTesting.datetime
}.
End ClickEvent.

Module SearchImpression.
Record t : Type := Build {
  user_id : string;
  query : string;
  variant : string;
  results_count : Z;
  response_time_ms : Q;
  session_id : option string;
  timestamp : ABTesting.datetime
}.
End SearchImpression.

(** A MongoDB collection: its documents, and whether the server answers. *)
Record Collection (A : Type) : Type := {
  documents : list A;
  reachable : bool
}.
Arguments documents {A} _.
Arguments reachable {A} _.

Record Database : Type := {
  clicks_collection : Collection ClickEvent.t;
  impressions_collection : Collection SearchImpression.t
}.

(** The service; [db] is [None] when MongoDB could not be reached at start. *)
Record ClickTrackingService : Type := {
  db : option Database
}.

(** A query document: [{'timestamp': {'$gte': cutoff}}] with the optional
    [user_id] and [variant] keys. *)
Record Filter : Type := {
  cutoff : ABTesting.datetime;
  by_user_id : option string;
  by_variant : option string
}.

Definition matches (f : Filter) (user_id variant : string)
    (timestamp : ABTesting.datetime) : bool :=
  (cutoff f <=? timestamp)%Z
  && match by_user_id f with Some u => String.eqb user_id u | None => true end
  && match by_variant f with Some v => String.eqb variant v | None => true end.

Definition click_matches (f : Filter) (c : ClickEvent.t) : bool :=
  matches f (ClickEvent.user_id c) (ClickEvent.variant c)
    (ClickEvent.timestamp c).




(** [round(x, ndigits)]: the closest multiple of [10 ** -ndigits], the even
    one of two equally close. *)
Definition py_round (x : Q) (ndigits : nat) : Q :=
  let scale := (10 ^ Z.of_nat ndigits)%Z in
  let scaled := (x * inject_Z scale)%Q in
  let low := Qfloor scaled in
  let twice := Qfloor (scaled * 2)%Q in
  let rounded :=
    if (twice <? 2 * low + 1)%Z then low
    else if Qeq_bool (scaled * 2)%Q (inject_Z (2 * low + 1)) then
      (if Z.even low then low else low + 1)%Z
    else (low + 1)%Z in
  (inject_Z rounded / inject_Z scale)%Q.

(** [clicks / impressions if impressions > 0 else 0.0] *)
Definition rate (clicks impressions : nat) : Q :=
  if (0 <? impressions)%nat
  then (inject_Z (Z.of_nat clicks) / inject_Z (Z.of_nat impressions))%Q
  else 0%Q.

Definition of_nat (n : nat) : Q := inject_Z (Z.of_nat n).

(** The dictionary returned when nothing can be counted. *)
Definition empty_ctr : gmap string Q :=
  <["ctr" := 0%Q]> (<["clicks" := 0%Q]> (<["impressions" := 0%Q]> ∅)).


Definition microseconds_per_day : Z := 86400000000.


(** [list(collection.find(filter))] *)
Definition find {A} (c : Collection A) (p : A -> bool) : result (list A) :=
  if reachable c then Return (List.filter p (documents c))
  else Raise (RuntimeError "server not reachable").

(** [sorted(l)] on elements compared by an integer key: a stable sort,
    smaller keys first. *)
Fixpoint insert_asc {A} (key : A -> Z) (x : A) (l : list A) : list A :=
  match l with
  | [] => [x]
  | y :: l' =>
      if (key x <=? key y)%Z then x :: l else y :: insert_asc key x l'
  end.

Definition sorted {A} (key : A -> Z) (l : list A) : list A :=
  foldr (insert_asc key) [] l.

(** [clicks_by_rank[rank] = clicks_by_rank.get(rank, 0) + 1] *)
Definition count_step (clicks_by_rank : gmap Z nat) (rank : Z)
  : gmap Z nat :=
  <[rank := (default 0 (clicks_by_rank !! rank) + 1)%nat]> clicks_by_rank.

(** The dictionary [get_rank_metrics] returns: without a database the two
    keys [avg_rank] and [clicks_by_rank]; without a click, or when the
    query fails, these and [total_clicks], all zero or empty; else the
    statistics, [clicks_by_rank] in the order of its keys. *)
Inductive RankMetrics : Type :=
| NoRanks (has_total_clicks : bool)
| Ranks (avg_rank : Q) (median_rank min_rank max_rank : Z)
    (clicks_by_rank : list (Z * nat)) (total_clicks : nat).

Definition get_rank_metrics (self : ClickTrackingService)
    (user_id variant : option string) (days : Z)
    (utcnow : ABTesting.datetime) : RankMetrics :=
  match db self with
  | None => NoRanks false
  | Some d =>
      let cutoff_time := (utcnow - days * microseconds_per_day)%Z in
      let filter :=
        {| cutoff := cutoff_time;
           by_user_id := SearchService.given user_id;
           by_variant := SearchService.given variant |} in
      match find (clicks_collection d) (click_matches filter) with
      | Raise _ => NoRanks true
      | Return [] => NoRanks true
      | Return ((click :: rest) as clicks) =>
          let ranks := map ClickEvent.rank clicks in
          let avg_rank :=
            (inject_Z (foldr Z.add 0%Z ranks) / of_nat (length ranks))%Q in
          let clicks_by_rank := foldl count_step ∅ ranks in
          Ranks (py_round avg_rank 2)
            (nth (length ranks / 2) (sorted (fun rank => rank) ranks) 0%Z)
            (foldl Z.min (ClickEvent.rank click)
               (map ClickEvent.rank rest))
            (foldl Z.max (ClickEvent.rank click)
               (map ClickEvent.rank rest))
            (sorted fst (map_to_list clicks_by_rank))
            (length clicks)
      end
  end.







End ClickTracking.

(** * Vocabulary of the properties *)

(** ** Scores *)

(** The specification's [clamp01]. *)
Definition clamp01 (x : R) : R :=
  if Rle_dec x 0 then 0%R else if Rle_dec 1 x then 1%R else x.

(** [float(vector_sim) if vector_sim is not None else 0.0] *)
Definition vector_value (v : option R) : R :=
  match v with Some x => x | None => 0%R end.

(** ** Text *)


(** [freq.get(k, 0)] *)
Definition count_of (d : gmap string Z) (k : string) : Z :=
  default 0%Z (d !! k).

(** ** Ranked lists *)

#[local] Instance R_eq_dec : EqDecision R := Req_dec_T.

(** Larger keys first. *)
Definition key_ge {A} (x y : R * A) : Prop := (fst y <= fst x)%R.

(** [a] is ranked before [b]: both carry a final score, and [a]'s is not
    smaller. *)
Definition final_score_ge (a b : ResultDict.t) : Prop :=
  exists x y : R,
    ResultDict.final_score a = Some x
    /\ ResultDict.final_score b = Some y
    /\ (y <= x)%R.

(** The dictionary the loop of [rerank_results] produces for one input
    element. *)
Definition annotate (query_text query_color query_category : option string)
    (weights : option (gmap string R))
    (add_score_field add_debug_scores : bool)
    (res : Ranking.result_like) : ResultDict.t :=
  snd (Ranking.score_one query_text query_color query_category weights
         add_score_field add_debug_scores res).

(** A scored pair carries its key in the dictionary, as every pair does
    when [add_score_field] is set. *)
Definition keyed (p : R * ResultDict.t) : Prop :=
  ResultDict.final_score (snd p) = Some (fst p).

(** Two results of one search: a red shirt of vector similarity 0.85 and
    a blue one of 0.75. *)
Definition red_shirt : ResultDict.t :=
  ResultDict.Build (Some "prod1") (Some "Red Cotton Shirt") None (Some "red")
    (Some "shirts") None (Some 0.85%R) (Some 0.15%R) None None.

Definition blue_shirt : ResultDict.t :=
  ResultDict.Build (Some "prod2") (Some "Blue Silk Shirt") None (Some "blue")
    (Some "shirts") None (Some 0.75%R) (Some 0.25%R) None None.

(** ** Fusion *)

(** The vector that is normalized: the weighted sum of the two inputs, or
    the one input given. *)
Definition fused_vector (image_vec text_vec : option (list R))
    (image_weight text_weight : R) : list R :=
  match image_vec, text_vec with
  | Some iv, Some tv =>
      zip_with (fun a b => (image_weight * a + text_weight * b)%R) iv tv
  | Some iv, None => iv
  | None, Some tv => tv
  | None, None => []
  end.


(** ** Events *)

(** An event passes the three filters; a filter that is [None] or empty
    is not applied. *)
Definition event_matches (user_id : option string)
    (variant : option ABTesting.ExperimentVariant)
    (event_type : option string) (e : ABTesting.ExperimentEvent.t) : bool :=
  match SearchService.given user_id with
  | Some u =>
      String.eqb
        (ABTesting.ExperimentEvent.user_id
           (ABTesting.ExperimentEvent.base_of e)) u
  | None => true
  end
  && match variant with
     | Some v =>
         bool_decide
           (ABTesting.ExperimentEvent.variant
              (ABTesting.ExperimentEvent.base_of e) = v)
     | None => true
     end
  && match SearchService.given event_type with
     | Some ty =>
         bool_decide (ABTesting.ExperimentEvent.event_type_of e = Some ty)
     | None => true
     end.

Definition timestamp_of (e : ABTesting.ExperimentEvent.t) : Z :=
  ABTesting.ExperimentEvent.timestamp (ABTesting.ExperimentEvent.base_of e).

(** Most recent first: the time stamps never increase along the list. *)
Definition most_recent_first (events : list ABTesting.ExperimentEvent.t)
  : Prop :=
  StronglySorted (fun a b => (timestamp_of b <= timestamp_of a)%Z) events.

(** The manager after two searches, logged at times 2 and 4. *)
Definition two_searches : ABTesting.ExperimentManager :=
  let m0 := ABTesting.init None (1 # 2) "memory" false in
  match ABTesting.log_search m0 "u1" "shoes" 3 5 None (3 # 10) 1%Z 2%Z with
  | Raise _ => m0
  | Return (_, m1) =>
      match ABTesting.log_search m1 "u2" "hat" 3 5 None (7 # 10) 3%Z 4%Z with
      | Raise _ => m1
      | Return (_, m2) => m2
      end
  end.

(** ** Operations of the experiment manager *)

(** The operations that change the manager (the queries [get_assignment],
    [get_events] and [get_metrics] leave it as it is), each with what the
    random generator and the clock give during the call. *)
Inductive operation : Type :=
| Assign (user_id : string) (metadata : option (gmap string string))
    (rand : Q) (now : ABTesting.datetime)
| LogEvent (event : ABTesting.ExperimentEvent.t)
| LogSearch (user_id query : string) (results_count : Z)
    (search_time_ms : Q) (session_id : option string)
    (rand : Q) (now stamp : ABTesting.datetime)
| LogClick (user_id product_id product_title : string) (position : Z)
    (query session_id : option string)
    (rand : Q) (now stamp : ABTesting.datetime).

(** The manager after a call; a call that raises leaves it unchanged. *)
Definition state_after {A} (self : ABTesting.ExperimentManager)
    (r : result (A * ABTesting.ExperimentManager))
  : ABTesting.ExperimentManager :=
  match r with
  | Return (_, self') => self'
  | Raise _ => self
  end.

Definition apply_operation (self : ABTesting.ExperimentManager)
    (op : operation) : ABTesting.ExperimentManager :=
  match op with
  | Assign u md rand now =>
      state_after self (ABTesting.assign_variant self u md rand now)
  | LogEvent e => ABTesting.log_event self e
  | LogSearch u q n t s rand now stamp =>
      state_after self (ABTesting.log_search self u q n t s rand now stamp)
  | LogClick u p ti pos q s rand now stamp =>
      state_after self
        (ABTesting.log_click self u p ti pos q s rand now stamp)
  end.

Definition run (self : ABTesting.ExperimentManager) (ops : list operation)
  : ABTesting.ExperimentManager :=
  foldl apply_operation self ops.

(** The backend keeps assignments: in memory or in Redis. *)
Definition keeps_assignments (self : ABTesting.ExperimentManager) : Prop :=
  ABTesting.storage_backend self = "memory"
  \/ ABTesting.storage_backend self = "redis".

(** A manager with the memory backend, the assignment its first user
    draws, and operations that follow. *)
Definition memory_manager : ABTesting.ExperimentManager :=
  ABTesting.init None (1 # 2) "memory" false.

Definition first_assignment : ABTesting.ExperimentAssignment.t :=
  ABTesting.ExperimentAssignment.Build "u" ABTesting.SEARCH_V1 100%Z ∅.

Definition later_operations : list operation :=
  [Assign "w" None (7 # 10) 150%Z;
   LogSearch "u" "shoes" 3 5 None (9 # 10) 160%Z 170%Z].

(** ** Click-through rate *)

(** The query document [get_ctr] builds from its arguments. *)
Definition ctr_filter (user_id variant : option string) (days : Z)
    (utcnow : ABTesting.datetime) : ClickTracking.Filter :=
  {| ClickTracking.cutoff :=
       (utcnow - days * ClickTracking.microseconds_per_day)%Z;
     ClickTracking.by_user_id := SearchService.given user_id;
     ClickTracking.by_variant := SearchService.given variant |}.




(** A service over one click and three impressions of one user. *)
Definition one_click_three_impressions : ClickTracking.ClickTrackingService :=
  let click :=
    ClickTracking.ClickEvent.Build "u" "p1" 0 "shoes" "search_v1" 12 None
      "search_results" 100%Z in
  let impression :=
    ClickTracking.SearchImpression.Build "u" "shoes" "search_v1" 5 12 None
      100%Z in
  {| ClickTracking.db :=
       Some {| ClickTracking.clicks_collection :=
                 {| ClickTracking.documents := [click];
                    ClickTracking.reachable := true |};
               ClickTracking.impressions_collection :=
                 {| ClickTracking.documents :=
                      [impression; impression; impression];
                    ClickTracking.reachable := true |} |} |}.

(** ** Search *)

(** What the search returns for one hit of the vector index when it
    re-ranks: the fields of the hit, with the final score in
    [similarity]. *)
Definition reranked_result (query_text : string)
    (category_filter color_filter : option string) (enable_debug : bool)
    (raw : SearchService.RawResult) : SearchResult.t :=
  let rd := SearchService.to_dict (SearchService.result_of_raw raw) in
  SearchResult.Build
    (SearchService.raw_product_id raw) (SearchService.raw_title raw)
    (SearchService.raw_description raw) (SearchService.raw_color raw)
    (SearchService.raw_category raw) (SearchService.raw_image_path raw)
    (Some (Ranking.score_of (Some query_text) color_filter category_filter
             None rd))
    (Some (SearchService.raw_distance raw))
    (if enable_debug
     then Some (Ranking.debug_of (Some query_text) color_filter
                  category_filter None rd)
     else None).




(** One hit of the vector index, of vector similarity 0.8. *)
Definition running_shoes : SearchService.RawResult :=
  {| SearchService.raw_product_id := Some "p1";
     SearchService.raw_title := Some "Running Shoes";
     SearchService.raw_description := Some "Light running shoes";
     SearchService.raw_color := Some "red";
     SearchService.raw_category := Some "footwear";
     SearchService.raw_image_path := Some "/images/p1.jpg";
     SearchService.raw_distance := 0.2;
     SearchService.raw_similarity := 0.8 |}.

(** A backend whose index holds that one product. *)
Definition one_hit_backend : SearchService.Backend :=
  {| SearchService.embed_text := fun _ => Return [1%R; 0%R];
     SearchService.client_search_by_vector :=
       fun _ _ _ _ => Return [running_shoes] |}.


Definition sample_env : ABSearch.Env :=
  {| ABSearch.elapsed_ms := 12; ABSearch.rand := 7 # 10;
     ABSearch.now := 100%Z; ABSearch.stamp := 101%Z |}.

(** ** Tokens *)

(** Every character of [s] is in [[a-z0-9]]. *)
Fixpoint all_token_chars (s : string) : bool :=
  match s with
  | EmptyString => true
  | String c s' => Ranking.is_token_char c && all_token_chars s'
  end.

(** A well-formed token: not empty, and made of [[a-z0-9]] only. *)
Definition is_token (t : string) : Prop :=
  t <> EmptyString /\ all_token_chars t = true.


(** What the flags of [rerank_results] add to one dictionary. *)
Definition decorate (query_text query_color query_category : option string)
    (weights : option (gmap string R))
    (add_score_field add_debug_scores : bool)
    (rd : ResultDict.t) : ResultDict.t :=
  annotate query_text query_color query_category weights
    add_score_field add_debug_scores (Ranking.IsDict rd).

(** ** Returned results *)

(** The filter [f], when it is given, is the value of the field. *)
Definition satisfies (f actual : option string) : Prop :=
  forall c : string, SearchService.given f = Some c -> actual = Some c.

(** [a] is not ranked after [b]: both carry a [similarity], and [a]'s is
    not smaller. *)
Definition similarity_ge (a b : SearchResult.t) : Prop :=
  exists x y : R,
    SearchResult.similarity a = Some x
    /\ SearchResult.similarity b = Some y
    /\ (y <= x)%R.

(** What re-ranking makes of one result of the vector search. *)
Definition rescored (query_text : string)
    (category_filter color_filter : option string) (enable_debug : bool)
    (r : SearchResult.t) : SearchResult.t :=
  SearchService.result_of_reranked
    (annotate (Some query_text) color_filter category_filter None true
       enable_debug (Ranking.IsDict (SearchService.to_dict r))).

(** ** Attribution of events *)

(** The event is attributed to the variant its user is assigned. *)
Definition attributed (self : ABTesting.ExperimentManager)
    (e : ABTesting.ExperimentEvent.t) : Prop :=
  exists a : ABTesting.ExperimentAssignment.t,
    ABTesting.get_assignment self
      (ABTesting.ExperimentEvent.user_id (ABTesting.ExperimentEvent.base_of e))
    = Some a
    /\ ABTesting.ExperimentAssignment.variant a
       = ABTesting.ExperimentEvent.variant
           (ABTesting.ExperimentEvent.base_of e).

(** The operation logs through [log_search] or [log_click], or assigns:
    it is not a direct call of [log_event]. *)
Definition through_manager (op : operation) : Prop :=
  match op with
  | LogEvent _ => False
  | _ => True
  end.

(** ** Rounding *)


(** ** Stored clicks *)

(** The ranks of the stored clicks a query document selects, in the order
    of the collection. *)
Definition matching_ranks (d : ClickTracking.Database)
    (f : ClickTracking.Filter) : list Z :=
  map ClickTracking.ClickEvent.rank
    (List.filter (ClickTracking.click_matches f)
       (ClickTracking.documents (ClickTracking.clicks_collection d))).


(** The database of [one_click_three_impressions]. *)
Definition one_click_database : ClickTracking.Database :=
  match ClickTracking.db one_click_three_impressions with
  | Some d => d
  | None =>
      {| ClickTracking.clicks_collection :=
           {| ClickTracking.documents := [];
              ClickTracking.reachable := false |};
         ClickTracking.impressions_collection :=
           {| ClickTracking.documents := [];
              ClickTracking.reachable := false |} |}
  end.

(** A multimodal backend over the index of [one_hit_backend]. *)
Definition one_hit_multimodal : SearchService.MultimodalBackend :=
  {| SearchService.text_backend := one_hit_backend;
     SearchService.embed_image := fun _ => Return [0%R; 1%R];
     SearchService.client_search_by_fused :=
       fun _ _ _ _ => Return [running_shoes] |}.

(** The index never reports a similarity above 1. *)
Definition similarity_at_most_one (be : SearchService.Backend) : Prop :=
  forall (v : list R) (k : Z) (category color : option string)
         (raws : list SearchService.RawResult),
    SearchService.client_search_by_vector be v k category color
    = Return raws ->
    Forall (fun raw => (SearchService.raw_similarity raw <= 1)%R) raws.

(** What an image search with re-ranking returns for [running_shoes]. *)
Definition reranked_image_hit : SearchResult.t :=
  SearchService.result_of_reranked
    (annotate None None None None true false
       (Ranking.IsDict
          (SearchService.to_dict (SearchService.result_of_raw running_shoes)))).

(** ** The search route behind the middleware *)

(** The class that [SEARCH_VARIANTS] maps the value of a variant to. *)
Definition variant_class (v : ABTesting.ExperimentVariant)
  : SearchVariants.search_variant :=
  match v with
  | ABTesting.SEARCH_V1 => SearchVariants.V1
  | ABTesting.SEARCH_V2 => SearchVariants.V2
  end.

(** [POST /search-ab/text] as the application runs it behind the
    middleware: the variant, the user and the session are the
    dependencies [inject_variant], [get_user_id] and [get_session_id] of
    the request state. *)
Definition text_search_route (be : SearchService.Backend)
    (env : ABSearch.Env) (query : string) (top_k : Z)
    (category color : option string) (debug : bool)
    (state : ABMiddleware.RequestState)
    (manager : ABTesting.ExperimentManager)
  : result (ABMiddleware.Response ABSearch.SearchResponse
            * ABTesting.ExperimentManager) :=
  r <- ABSearch.search_by_text_ab be manager env
         (ABMiddleware.inject_variant (Some state))
         (ABMiddleware.get_user_id (Some state))
         (Some (ABMiddleware.get_session_id (Some state)))
         query top_k category color debug;;
  Return ({| ABMiddleware.body := fst r;
             ABMiddleware.response_headers := ∅ |}, snd r).

(** A request that names its user in the [X-User-ID] header. *)
Definition request_of_u1 : ABMiddleware.Request :=
  {| ABMiddleware.headers :=
       fun name => if String.eqb name "X-User-ID" then Some "u1" else None;
     ABMiddleware.cookies := fun _ => None |}.

(** The answer to [request_of_u1] for the query "shoes", and the manager
    after it. *)
Definition routed : result (ABMiddleware.Response ABSearch.SearchResponse
                            * ABTesting.ExperimentManager) :=
  ABMiddleware.dispatch ABMiddleware.default_middleware memory_manager
    request_of_u1
    (text_search_route one_hit_backend sample_env "shoes" 5 None None false)
    "uuid-1" "uuid-2" (3 # 10) 100%Z.

Definition routed_response : ABMiddleware.Response ABSearch.SearchResponse :=
  match routed with
  | Return (response, _) => response
  | Raise _ =>
      {| ABMiddleware.body :=
           {| ABSearch.query := ""; ABSearch.results := [];
              ABSearch.total_results := 0 |};
         ABMiddleware.response_headers := ∅ |}
  end.

Definition routed_manager : ABTesting.ExperimentManager :=
  match routed with
  | Return (_, manager) => manager
  | Raise _ => memory_manager
  end.

(** ** Complete products *)

(** The field is not [None]. *)
Definition has_value {A} (field : option A) : bool :=
  match field with
  | Some _ => true
  | None => false
  end.

(** Every field that [ProductResult] requires has a value. *)
Definition complete (r : SearchResult.t) : bool :=
  has_value (SearchResult.product_id r)
  && has_value (SearchResult.title r)
  && has_value (SearchResult.description r)
  && has_value (SearchResult.color r)
  && has_value (SearchResult.category r)
  && has_value (SearchResult.image_path r)
  && has_value (SearchResult.similarity r)
  && has_value (SearchResult.distance r).

(** A hit of the index without a description, and a backend that
    returns it. *)
Definition undescribed_shoes : SearchService.RawResult :=
  {| SearchService.raw_product_id := Some "p2";
     SearchService.raw_title := Some "Trail Shoes";
     SearchService.raw_description := None;
     SearchService.raw_color := Some "red";
     SearchService.raw_category := Some "footwear";
     SearchService.raw_image_path := Some "/images/p2.jpg";
     SearchService.raw_distance := 0.3;
     SearchService.raw_similarity := 0.7 |}.

Definition undescribed_backend : SearchService.Backend :=
  {| SearchService.embed_text := fun _ => Return [1%R; 0%R];
     SearchService.client_search_by_vector :=
       fun _ _ _ _ => Return [running_shoes; undescribed_shoes] |}.

(** ** Weights *)

(** [w[k]] after [w.update(ws)]: the value [ws] gives the key, else the
    default one. *)
Definition weight_or_default (ws : gmap string R) (k : string) : R :=
  match ws !! k with
  | Some x => x
  | None => Ranking.weight Ranking.default_weights k
  end.

(** * Properties *)

(** ** The weighted score *)

Section ScoreProps.
Import Ranking.
Local Open Scope R_scope.

Lemma default_weight_vector : weight default_weights "vector" = 5 / 10.
Proof. unfold weight, default_weights. by simplify_map_eq. Qed.

Lemma default_weight_color : weight default_weights "color" = 2 / 10.
Proof. unfold weight, default_weights. by simplify_map_eq. Qed.

Lemma default_weight_category : weight default_weights "category" = 2 / 10.
Proof. unfold weight, default_weights. by simplify_map_eq. Qed.

Lemma default_weight_text : weight default_weights "text" = 1 / 10.
Proof. unfold weight, default_weights. by simplify_map_eq. Qed.

Lemma compute_final_score_default (v : option R) (c cat t : R) :
  compute_final_score v c cat t None
  = Rmax 0 (Rmin 1 (5 / 10 * vector_value v + 2 / 10 * c
                    + 2 / 10 * cat + 1 / 10 * t)).
Proof.
  unfold compute_final_score, effective_weights, vector_value.
  by rewrite default_weight_vector, default_weight_color,
    default_weight_category, default_weight_text.
Qed.

Lemma Rmax_Rmin_clamp01 (x : R) : Rmax 0 (Rmin 1 x) = clamp01 x.
Proof.
  unfold clamp01, Rmax, Rmin.
  repeat (destruct (Rle_dec _ _); try lra).
Qed.




End ScoreProps.

(** ** Text similarity *)

Section DictSum.
Import Ranking.
Local Open Scope Z_scope.

Implicit Types (g : string -> Z -> Z) (d : gmap string Z).

Lemma dict_sum_empty g : dict_sum g ∅ = 0.
Proof. unfold dict_sum. by rewrite map_fold_empty. Qed.

Lemma dict_sum_insert g d k v :
  d !! k = None -> dict_sum g (<[k:=v]> d) = dict_sum g d + g k v.
Proof.
  intros Hk. unfold dict_sum.
  rewrite map_fold_insert_L; [done| |done].
  intros. lia.
Qed.

Lemma dict_sum_ext g1 g2 d :
  (forall k v, d !! k = Some v -> g1 k v = g2 k v) ->
  dict_sum g1 d = dict_sum g2 d.
Proof.
  induction d as [|k v d Hk IH] using map_ind; intros Hg.
  - by rewrite !dict_sum_empty.
  - rewrite !dict_sum_insert by done.
    rewrite IH, (Hg k v); [done|by rewrite lookup_insert_eq|].
    intros k' v' Hk'. apply Hg.
    rewrite lookup_insert_ne; [done|]. intros ->. congruence.
Qed.

Lemma dict_sum_nonneg g d :
  (forall k v, d !! k = Some v -> 0 <= g k v) -> 0 <= dict_sum g d.
Proof.
  induction d as [|k v d Hk IH] using map_ind; intros Hg.
  - by rewrite dict_sum_empty.
  - rewrite dict_sum_insert by done.
    assert (0 <= g k v) by (apply Hg; by rewrite lookup_insert_eq).
    assert (0 <= dict_sum g d); [|lia].
    apply IH. intros k' v' Hk'. apply Hg.
    rewrite lookup_insert_ne; [done|]. intros ->. congruence.
Qed.

Lemma dict_sum_pos g d :
  d <> ∅ -> (forall k v, d !! k = Some v -> 0 < g k v) -> 0 < dict_sum g d.
Proof.
  induction d as [|k v d Hk IH] using map_ind; intros Hne Hg; [done|].
  rewrite dict_sum_insert by done.
  assert (0 < g k v) by (apply Hg; by rewrite lookup_insert_eq).
  assert (0 <= dict_sum g d); [|lia].
  apply dict_sum_nonneg. intros k' v' Hk'. apply Z.lt_le_incl, Hg.
  rewrite lookup_insert_ne; [done|]. intros ->. congruence.
Qed.

Lemma dot_term_count d k v : dot_term d k v = v * count_of d k.
Proof.
  unfold dot_term, count_of.
  destruct (d !! k) as [vb|]; simpl; [|lia].
  destruct (Z.eqb_spec vb 0); subst; lia.
Qed.

Lemma dot_product_insert_r d1 d2 k v :
  d2 !! k = None ->
  dot_product d1 (<[k:=v]> d2) = dot_product d1 d2 + count_of d1 k * v.
Proof.
  intros Hk. unfold dot_product.
  induction d1 as [|j y d1 Hj IH] using map_ind.
  - rewrite !dict_sum_empty. unfold count_of. by rewrite lookup_empty.
  - rewrite !dict_sum_insert by done. rewrite IH, !dot_term_count.
    unfold count_of. destruct (decide (k = j)) as [->|Hne].
    + rewrite !lookup_insert_eq, Hk, Hj. simpl. lia.
    + rewrite !lookup_insert_ne by done. lia.
Qed.

Lemma dot_product_comm d1 d2 : dot_product d1 d2 = dot_product d2 d1.
Proof.
  induction d1 as [|k v d1 Hk IH] using map_ind.
  - unfold dot_product at 1. rewrite dict_sum_empty.
    unfold dot_product. symmetry.
    rewrite (dict_sum_ext _ (fun _ _ => 0)).
    + clear. induction d2 as [|k v d2 Hk IH] using map_ind.
      * by rewrite dict_sum_empty.
      * rewrite dict_sum_insert by done. lia.
    + intros k v _. rewrite dot_term_count. unfold count_of.
      rewrite lookup_empty. simpl. lia.
  - rewrite dot_product_insert_r by done.
    unfold dot_product at 1. rewrite dict_sum_insert by done.
    fold (dot_product d1 d2). rewrite IH, dot_term_count. lia.
Qed.


End DictSum.

Section TextSimilarityProps.
Import Ranking.




Lemma foldl_bow_step_pos (ts : list string) (acc : gmap string Z) :
  map_Forall (fun _ v => (0 < v)%Z) acc ->
  map_Forall (fun _ v => (0 < v)%Z) (foldl bow_step acc ts).
Proof.
  revert acc. induction ts as [|t ts IH]; intros acc Hacc; simpl; [done|].
  apply IH. unfold bow_step.
  apply map_Forall_insert_2; [|done].
  destruct (acc !! t) as [v|] eqn:Ht; simpl; [|lia].
  apply Hacc in Ht. lia.
Qed.


Lemma bow_pos (q : string) : map_Forall (fun _ v => (0 < v)%Z) (_bow q).
Proof. apply foldl_bow_step_pos, map_Forall_empty. Qed.










End TextSimilarityProps.

(** ** Re-ranking: order, stability, frame *)

Section SortDesc.
Import Ranking.
Context {A : Type}.
Implicit Types (x : R * A) (l : list (R * A)).

Lemma insert_desc_perm x l : insert_desc x l ≡ₚ x :: l.
Proof.
  induction l as [|y l IH]; simpl; [done|].
  destruct (Rlt_dec _ _); [|done].
  rewrite IH. apply Permutation_swap.
Qed.

Lemma sort_desc_perm l : sort_desc l ≡ₚ l.
Proof.
  induction l as [|x l IH]; simpl; [done|].
  fold (sort_desc l). by rewrite insert_desc_perm, IH.
Qed.

Lemma insert_desc_sorted x l :
  StronglySorted key_ge l -> StronglySorted key_ge (insert_desc x l).
Proof.
  induction 1 as [|y l Hl IH Hy]; simpl.
  - repeat constructor.
  - destruct (Rlt_dec (fst x) (fst y)) as [Hlt|Hge].
    + constructor; [done|].
      rewrite insert_desc_perm. constructor; [|done].
      unfold key_ge. lra.
    + constructor; [by constructor|].
      constructor; [unfold key_ge; lra|].
      eapply Forall_impl; [exact Hy|].
      intros z Hz. unfold key_ge in *. lra.
Qed.

Lemma sort_desc_sorted l : StronglySorted key_ge (sort_desc l).
Proof.
  induction l as [|x l IH]; simpl; [constructor|].
  by apply insert_desc_sorted.
Qed.

(** Stability: the elements of any one key keep their order. *)
Lemma insert_desc_filter_key (s : R) x l :
  filter (fun y => fst y = s) (insert_desc x l)
  = filter (fun y => fst y = s) (x :: l).
Proof.
  induction l as [|y l IH]; simpl; [done|].
  destruct (Rlt_dec (fst x) (fst y)) as [Hlt|Hge]; [|done].
  rewrite filter_cons, IH, !filter_cons.
  repeat case_decide; try done. lra.
Qed.

Lemma sort_desc_filter_key (s : R) l :
  filter (fun y => fst y = s) (sort_desc l) = filter (fun y => fst y = s) l.
Proof.
  induction l as [|x l IH]; simpl; [done|].
  fold (sort_desc l).
  by rewrite insert_desc_filter_key, !filter_cons, IH.
Qed.

End SortDesc.

Section RerankProps.
Import Ranking.

Variables (query_text query_color query_category : option string).
Variable weights : option (gmap string R).
Variables (add_score_field add_debug_scores : bool).

Lemma rerank_results_perm (results : list result_like) :
  rerank_results query_text query_color query_category weights
    add_score_field add_debug_scores results
  ≡ₚ map (annotate query_text query_color query_category weights
            add_score_field add_debug_scores) results.
Proof.
  unfold rerank_results. rewrite sort_desc_perm.
  by rewrite map_map.
Qed.


End RerankProps.

Section RerankOrder.
Import Ranking.

Variables (query_text query_color query_category : option string).
Variable weights : option (gmap string R).
Variable add_debug_scores : bool.

Lemma score_one_keyed (res : result_like) :
  keyed (score_one query_text query_color query_category weights
           true add_debug_scores res).
Proof. unfold keyed, score_one. simpl. by destruct add_debug_scores. Qed.

Lemma sorted_map_snd (l : list (R * ResultDict.t)) :
  Forall keyed l -> StronglySorted key_ge l ->
  StronglySorted final_score_ge (map snd l).
Proof.
  intros Hk Hs. induction Hs as [|p l Hs IH Hp]; simpl; [constructor|].
  apply Forall_cons in Hk as [Hkp Hkl].
  constructor; [by apply IH|].
  apply Forall_map, Forall_forall. intros q Hq.
  rewrite Forall_forall in Hp, Hkl.
  exists (fst p), (fst q). repeat split; [done|by apply Hkl|by apply Hp].
Qed.

Lemma filter_map_snd (s : R) (l : list (R * ResultDict.t)) :
  Forall keyed l ->
  filter (fun rd => ResultDict.final_score rd = Some s) (map snd l)
  = map snd (filter (fun p => fst p = s) l).
Proof.
  induction 1 as [|p l Hp Hl IH]; simpl; [done|].
  rewrite !filter_cons, IH. unfold keyed in Hp.
  repeat case_decide; simpl; try done; congruence.
Qed.

Lemma sort_desc_keyed (results : list result_like) :
  Forall keyed
    (sort_desc (map (score_one query_text query_color query_category weights
                       true add_debug_scores) results)).
Proof.
  rewrite sort_desc_perm. apply Forall_map, Forall_forall.
  intros res _. apply score_one_keyed.
Qed.

(** C5. The list [rerank_results] returns is in descending order of
    [final_score], and the results of any one [final_score] are in the order
    in which the input had them. *)
Theorem rerank_results_sorted_desc_stable (results : list result_like) :
  let out :=
    rerank_results query_text query_color query_category weights
      true add_debug_scores results in
  StronglySorted final_score_ge out
  /\ Forall (fun rd => is_Some (ResultDict.final_score rd)) out
  /\ forall s : R,
      filter (fun rd => ResultDict.final_score rd = Some s) out
      = filter (fun rd => ResultDict.final_score rd = Some s)
          (map (annotate query_text query_color query_category weights
                  true add_debug_scores) results).
Proof.
  pose proof (sort_desc_keyed results) as Hk.
  unfold rerank_results. repeat split.
  - apply sorted_map_snd; [done|apply sort_desc_sorted].
  - apply Forall_map. eapply Forall_impl; [exact Hk|].
    intros p Hp. unfold keyed in Hp. simpl. by rewrite Hp.
  - intros s. rewrite filter_map_snd by done.
    rewrite sort_desc_filter_key.
    rewrite <- filter_map_snd.
    + by rewrite map_map.
    + apply Forall_map, Forall_forall. intros res _. apply score_one_keyed.
Qed.

End RerankOrder.

Section RerankFrame.
Import Ranking.


End RerankFrame.

(** ** Embedding fusion *)

Section FusionProps.
Import SearchService.
Local Open Scope R_scope.










End FusionProps.

(** ** The event query *)

Section EventQueryProps.
Import ABTesting.

Lemma filter_filter {A} (p q : A -> bool) (l : list A) :
  List.filter q (List.filter p l) = List.filter (fun x => p x && q x) l.
Proof.
  induction l as [|x l IH]; simpl; [done|].
  destruct (p x); simpl; [|done]. destruct (q x); by rewrite IH.
Qed.

Lemma filter_all {A} (p : A -> bool) (l : list A) :
  (forall x, p x = true) -> List.filter p l = l.
Proof.
  intros Hp. induction l as [|x l IH]; simpl; [done|].
  by rewrite Hp, IH.
Qed.

Lemma get_events_filter (self : ExperimentManager) (user_id : option string)
    (variant : option ExperimentVariant) (event_type : option string)
    (limit : Z) :
  get_events self user_id variant event_type limit
  = slice_from (- limit)
      (List.filter (event_matches user_id variant event_type)
         (_events self)).
Proof.
  unfold get_events, event_matches. f_equal.
  destruct user_id as [[|c u]|], variant as [v|],
    event_type as [[|c' ty]|]; simpl; rewrite ?filter_filter.
  all: try (by symmetry; apply filter_all).
  all: apply filter_ext; intros e; by rewrite ?andb_true_r, ?andb_assoc.
Qed.

(** C3, as the code has it.  For a limit [n >= 1] the event query returns
    the last [n] of the events that pass the filters (all of them when there
    are fewer), in the order in which they were logged -- the oldest of them
    first -- and so at most [n] events, each passing the filters. *)
Theorem get_events_last_matching (self : ExperimentManager)
    (user_id : option string) (variant : option ExperimentVariant)
    (event_type : option string) (limit : Z) :
  (0 < limit)%Z ->
  let matching :=
    List.filter (event_matches user_id variant event_type) (_events self) in
  let out := get_events self user_id variant event_type limit in
  out = drop (length matching - Z.to_nat limit) matching
  /\ (length out <= Z.to_nat limit)%nat
  /\ Forall (fun e => event_matches user_id variant event_type e = true) out
  /\ exists older, matching = older ++ out.
Proof.
  intros Hlimit matching out.
  assert (out = drop (length matching - Z.to_nat limit) matching) as Hout.
  { unfold out. rewrite get_events_filter. fold matching.
    unfold slice_from. destruct (Z.leb_spec 0 (- limit)); [lia|].
    by rewrite Z.opp_involutive. }
  split; [done|]. rewrite Hout. split; [|split].
  - rewrite length_drop. lia.
  - apply Forall_drop, Forall_forall. intros e He.
    by apply list_elem_of_In, filter_In in He as [_ He].
  - exists (take (length matching - Z.to_nat limit) matching).
    by rewrite take_drop.
Qed.

Lemma get_events_last_matching_witness :
  let matching :=
    List.filter (event_matches None None None) (_events two_searches) in
  let out := get_events two_searches None None None 1 in
  out = drop (length matching - Z.to_nat 1) matching
  /\ (length out <= Z.to_nat 1)%nat
  /\ Forall (fun e => event_matches None None None e = true) out
  /\ exists older, matching = older ++ out.
Proof.
  apply (get_events_last_matching two_searches None None None 1). lia.
Defined.

(** C3 as stated fails: of two searches logged at times 2 and 4 the query
    returns the older one first. *)
Lemma get_events_oldest_first :
  map timestamp_of (get_events two_searches None None None 10) = [2; 4]%Z
  /\ ~ most_recent_first (get_events two_searches None None None 10).
Proof.
  split; [done|]. intros Hs.
  change (get_events two_searches None None None 10)
    with (_events two_searches) in Hs.
  unfold two_searches in Hs. simpl in Hs.
  apply StronglySorted_inv in Hs as [_ Hs].
  apply Forall_inv in Hs. unfold timestamp_of in Hs. simpl in Hs. lia.
Qed.

(** The limit 0 is outside the theorem above: [events[-0:]] is the whole
    list, so both events come back. *)
Lemma get_events_limit_zero :
  length (get_events two_searches None None None 0) = 2%nat.
Proof. reflexivity. Qed.

End EventQueryProps.

(** ** Sticky assignment *)

Section StickyProps.
Import ABTesting.

Implicit Types (self : ExperimentManager) (a : ExperimentAssignment.t).

Lemma assignment_key_inj (u1 u2 : string) :
  assignment_key u1 = assignment_key u2 -> u1 = u2.
Proof. unfold assignment_key. cbv [String.append]. congruence. Qed.

Lemma store_assignment_backend self a :
  storage_backend (_store_assignment self a) = storage_backend self.
Proof.
  unfold _store_assignment.
  by repeat (destruct (String.eqb _ _); simpl).
Qed.

Lemma store_assignment_get self a :
  keeps_assignments self ->
  get_assignment (_store_assignment self a) (ExperimentAssignment.user_id a)
  = Some a.
Proof.
  intros [Hb|Hb]; unfold get_assignment, _store_assignment; rewrite Hb;
    simpl; by rewrite lookup_insert_eq.
Qed.

Lemma store_assignment_other self a (u : string) :
  u <> ExperimentAssignment.user_id a ->
  get_assignment (_store_assignment self a) u = get_assignment self u.
Proof.
  intros Hu. unfold get_assignment, _store_assignment.
  destruct (String.eqb (storage_backend self) "memory") eqn:Hm; simpl.
  { rewrite Hm. by rewrite lookup_insert_ne. }
  destruct (String.eqb (storage_backend self) "redis") eqn:Hr; simpl.
  - rewrite Hm, Hr. rewrite lookup_insert_ne; [done|].
    intros Hk. by apply assignment_key_inj in Hk.
  - by rewrite Hm, Hr.
Qed.

(** What a successful [assign_variant] leaves behind. *)
Lemma assign_variant_stores self (u : string) md rand now a self' :
  keeps_assignments self ->
  assign_variant self u md rand now = Return (a, self') ->
  keeps_assignments self' /\ get_assignment self' u = Some a.
Proof.
  intros Hk. unfold assign_variant.
  destruct (get_assignment self u) as [existing|] eqn:Hget.
  { intros [= <- <-]. by split. }
  destruct (variants self !! _) as [v|]; [|done].
  intros [= <- <-]. split.
  - unfold keeps_assignments. by rewrite store_assignment_backend.
  - by apply (store_assignment_get self
                (ExperimentAssignment.Build u v now (default ∅ md))).
Qed.

(** An assignment that is kept is returned by [assign_variant]. *)
Lemma assign_variant_existing self (u : string) md rand now a :
  get_assignment self u = Some a ->
  assign_variant self u md rand now = Return (a, self).
Proof. intros Hget. unfold assign_variant. by rewrite Hget. Qed.

(** Assigning any user keeps the assignment of [u]. *)
Lemma assign_variant_preserves self (u u' : string) md rand now a :
  keeps_assignments self ->
  get_assignment self u = Some a ->
  let self' := state_after self (assign_variant self u' md rand now) in
  keeps_assignments self' /\ get_assignment self' u = Some a.
Proof.
  intros Hk Hget. unfold assign_variant.
  destruct (get_assignment self u') as [existing|] eqn:Hget'; [done|].
  destruct (variants self !! _) as [v|]; [|done]. simpl. split.
  - unfold keeps_assignments. by rewrite store_assignment_backend.
  - rewrite store_assignment_other; [done|]. simpl. congruence.
Qed.

Lemma log_event_preserves self (u : string) e a :
  keeps_assignments self ->
  get_assignment self u = Some a ->
  keeps_assignments (log_event self e)
  /\ get_assignment (log_event self e) u = Some a.
Proof. done. Qed.

Lemma assignment_for_preserves self (u u' : string) rand now a :
  keeps_assignments self ->
  get_assignment self u = Some a ->
  match assignment_for self u' rand now with
  | Return (_, self') =>
      keeps_assignments self' /\ get_assignment self' u = Some a
  | Raise _ => True
  end.
Proof.
  intros Hk Hget. unfold assignment_for.
  destruct (get_assignment self u') as [a'|] eqn:Hget'; [done|].
  pose proof (assign_variant_preserves self u u' None rand now a Hk Hget)
    as Hp.
  by destruct (assign_variant self u' None rand now) as [[? ?]|].
Qed.

Lemma apply_operation_preserves self (u : string) a (op : operation) :
  keeps_assignments self ->
  get_assignment self u = Some a ->
  keeps_assignments (apply_operation self op)
  /\ get_assignment (apply_operation self op) u = Some a.
Proof.
  intros Hk Hget. destruct op as [u' md rand now | e
    | u' q n t s rand now stamp | u' p ti pos q s rand now stamp]; simpl.
  - by apply assign_variant_preserves.
  - by apply log_event_preserves.
  - unfold log_search.
    pose proof (assignment_for_preserves self u u' rand now a Hk Hget) as Hp.
    by destruct (assignment_for self u' rand now) as [[? ?]|].
  - unfold log_click.
    pose proof (assignment_for_preserves self u u' rand now a Hk Hget) as Hp.
    by destruct (assignment_for self u' rand now) as [[? ?]|].
Qed.

Lemma run_preserves (ops : list operation) self (u : string) a :
  keeps_assignments self ->
  get_assignment self u = Some a ->
  keeps_assignments (run self ops) /\ get_assignment (run self ops) u = Some a.
Proof.
  revert self. induction ops as [|op ops IH]; intros self Hk Hget; [done|].
  simpl. destruct (apply_operation_preserves self u a op Hk Hget).
  by apply IH.
Qed.

(** X15. With the memory or the Redis backend an assignment is sticky:
    after any operations short of a reset, [get_assignment] and
    [assign_variant] return the assignment first made, variant and time
    included. *)
Lemma assignment_sticky_when_kept self (u : string) md rand now a self'
    (ops : list operation) md' rand' now' :
  keeps_assignments self ->
  assign_variant self u md rand now = Return (a, self') ->
  get_assignment (run self' ops) u = Some a
  /\ assign_variant (run self' ops) u md' rand' now'
     = Return (a, run self' ops).
Proof.
  intros Hk Ha.
  destruct (assign_variant_stores _ _ _ _ _ _ _ Hk Ha) as [Hk' Hget].
  destruct (run_preserves ops self' u a Hk' Hget) as [_ Hrun].
  split; [done|]. by apply assign_variant_existing.
Qed.

Lemma assignment_sticky_when_kept_witness :
  get_assignment (run (_store_assignment memory_manager first_assignment)
                    later_operations) "u"
  = Some first_assignment
  /\ assign_variant
       (run (_store_assignment memory_manager first_assignment)
          later_operations) "u" None (7 # 10) 200%Z
     = Return (first_assignment,
               run (_store_assignment memory_manager first_assignment)
                 later_operations).
Proof.
  apply (assignment_sticky_when_kept memory_manager "u" None (3 # 10) 100%Z
           first_assignment
           (_store_assignment memory_manager first_assignment)
           later_operations None (7 # 10) 200%Z); [by left|reflexivity].
Defined.

(** C6 at the [file] backend, which the constructor documents next to
    [memory] and [redis]: no assignment is ever stored, so a second
    [assign_variant] for the same user draws again -- here another variant
    at another time -- and [get_assignment] finds nothing. *)
Theorem assign_variant_file_backend_not_sticky :
  let self := init None (1 # 2) "file" false in
  assign_variant self "u" None (3 # 10) 100%Z
  = Return (ExperimentAssignment.Build "u" SEARCH_V1 100%Z ∅, self)
  /\ assign_variant self "u" None (7 # 10) 200%Z
     = Return (ExperimentAssignment.Build "u" SEARCH_V2 200%Z ∅, self)
  /\ get_assignment self "u" = None.
Proof. by repeat split. Qed.

End StickyProps.

(** ** Click-through rate *)

Section RoundProps.
Import ClickTracking.
Local Open Scope Q_scope.





End RoundProps.

Section CtrProps.
Import ClickTracking.
Local Open Scope Q_scope.

Lemma empty_ctr_ctr : empty_ctr !! "ctr"%string = Some 0.
Proof. done. Qed.











End CtrProps.

(** ** Search with re-ranking *)

Section SearchProps.
Import SearchService.

Lemma slice_to_elem_of {A} (k : Z) (l : list A) (x : A) :
  x ∈ slice_to k l -> x ∈ l.
Proof.
  unfold slice_to. destruct (0 <=? k)%Z; apply subseteq_take.
Qed.








End SearchProps.

(** ** The A/B search endpoint *)

Section EndpointProps.
Import SearchVariants ABSearch.




End EndpointProps.

(** ** Examples of the specification *)

Section Examples.
Import Ranking.
Local Open Scope R_scope.

Example exact_match_boost_case :
  exact_match_boost (Some "Blue") (Some "blue") = 1.
Proof. reflexivity. Qed.

Example exact_match_boost_differ :
  exact_match_boost (Some "Blue") (Some "Red") = 0.
Proof. reflexivity. Qed.

Example exact_match_boost_missing :
  exact_match_boost None (Some "blue") = 0.
Proof. reflexivity. Qed.

Example text_similarity_empty : text_similarity (Some "") (Some "x") = 0.
Proof. reflexivity. Qed.

Example tokenize_example :
  _tokenize "Blue-Suede  SHOES, size 42!"
  = ["blue"; "suede"; "shoes"; "size"; "42"]%string.
Proof. reflexivity. Qed.

Lemma score_of_red_shirt :
  score_of None (Some "blue") None None red_shirt = 0.425.
Proof.
  unfold score_of. rewrite compute_final_score_default, Rmax_Rmin_clamp01.
  change (exact_match_boost (Some "blue") (ResultDict.color red_shirt))
    with 0.
  unfold clamp01. simpl.
  repeat (destruct (Rle_dec _ _); try lra).
Qed.

Lemma score_of_blue_shirt :
  score_of None (Some "blue") None None blue_shirt = 0.575.
Proof.
  unfold score_of. rewrite compute_final_score_default, Rmax_Rmin_clamp01.
  change (exact_match_boost (Some "blue") (ResultDict.color blue_shirt))
    with 1.
  unfold clamp01. simpl.
  repeat (destruct (Rle_dec _ _); try lra).
Qed.

(** The color match outweighs the higher vector similarity. *)
Example rerank_results_color_match_first :
  map ResultDict.product_id
    (rerank_results None (Some "blue") None None true false
       [IsDict red_shirt; IsDict blue_shirt])
  = [Some "prod2"; Some "prod1"]%string.
Proof.
  unfold rerank_results, sort_desc, score_one. simpl.
  rewrite score_of_red_shirt, score_of_blue_shirt.
  by destruct (Rlt_dec 0.425 0.575); [|lra].
Qed.

Example ctr_three_of_ten :
  (ClickTracking.py_round (ClickTracking.rate 3 10) 4 == 0.3)%Q.
Proof. reflexivity. Qed.

End Examples.

(** * Further properties of the code *)

(** ** Tokens and bags of words *)

Section TokenProps.
Import Ranking.

Lemma all_token_chars_snoc (s : string) (c : ascii) :
  all_token_chars s = true -> is_token_char c = true ->
  all_token_chars (s ++ String c EmptyString) = true.
Proof.
  intros Hs Hc. induction s as [|c' s IH].
  - cbv [String.append]. simpl. by rewrite Hc.
  - simpl in Hs. apply andb_prop in Hs as [Hc' Hs].
    change (String c' s ++ String c EmptyString)%string
      with (String c' (s ++ String c EmptyString)).
    simpl. by rewrite Hc', IH.
Qed.

Lemma snoc_not_empty (s : string) (c : ascii) :
  (s ++ String c EmptyString)%string <> EmptyString.
Proof. by destruct s. Qed.

Lemma findall_runs_tokens (s cur : string) :
  all_token_chars cur = true -> Forall is_token (findall_runs cur s).
Proof.
  revert cur. induction s as [|c s IH]; intros cur Hcur; simpl.
  - destruct cur; [constructor|]. by repeat constructor.
  - destruct (is_token_char c) eqn:Hc.
    + by apply IH, all_token_chars_snoc.
    + destruct cur as [|c' cur]; [by apply IH|].
      constructor; [done|by apply IH].
Qed.

(** X1. Every token [_tokenize] returns is non-empty and consists only of
    the characters [a-z] and [0-9]. *)
Theorem tokenize_tokens_wellformed (text : string) :
  Forall is_token (_tokenize text).
Proof.
  destruct text as [|c text]; [constructor|].
  by apply findall_runs_tokens.
Qed.

Lemma lower_char_idemp (c : ascii) : lower_char (lower_char c) = lower_char c.
Proof. by destruct c as [[] [] [] [] [] [] [] []]. Qed.

Lemma lower_idemp (s : string) : lower (lower s) = lower s.
Proof.
  induction s as [|c s IH]; simpl; [done|].
  by rewrite lower_char_idemp, IH.
Qed.

Lemma tokenize_lower (s : string) : _tokenize (lower s) = _tokenize s.
Proof.
  destruct s as [|c s]; [done|].
  unfold _tokenize. cbn [lower].
  by rewrite lower_char_idemp, lower_idemp.
Qed.

Lemma text_similarity_lower (q : string) (title : option string) :
  text_similarity (Some (lower q)) title = text_similarity (Some q) title.
Proof.
  unfold text_similarity, _bow. rewrite tokenize_lower.
  destruct q as [|c q], title as [t|]; done.
Qed.

(** X2. Text similarity ignores case: two query texts with the same
    lower-cased form have the same similarity to every title. *)
Theorem text_similarity_case_insensitive (q1 q2 : string)
    (title : option string) :
  lower q1 = lower q2 ->
  text_similarity (Some q1) title = text_similarity (Some q2) title.
Proof.
  intros Hq.
  by rewrite <- (text_similarity_lower q1), <- (text_similarity_lower q2), Hq.
Qed.

Lemma text_similarity_case_insensitive_witness :
  text_similarity (Some "Blue SHOES") (Some "Blue Running Shoes")
  = text_similarity (Some "blue shoes") (Some "Blue Running Shoes").
Proof. by apply text_similarity_case_insensitive. Defined.

Lemma foldl_bow_step_count (ts : list string) (acc : gmap string Z)
    (t : string) :
  count_of (foldl bow_step acc ts) t
  = (count_of acc t + Z.of_nat (count_occ string_dec ts t))%Z.
Proof.
  revert acc. induction ts as [|t' ts IH]; intros acc; simpl; [lia|].
  rewrite IH. unfold bow_step, count_of.
  destruct (string_dec t' t) as [->|Hne].
  - rewrite lookup_insert_eq. simpl. lia.
  - rewrite lookup_insert_ne by done. lia.
Qed.

Lemma foldl_bow_step_lookup_none (ts : list string) (acc : gmap string Z)
    (t : string) :
  foldl bow_step acc ts !! t = None <-> acc !! t = None /\ t ∉ ts.
Proof.
  revert acc. induction ts as [|t' ts IH]; intros acc; simpl.
  - split; [|by intros [? _]]. intros Hacc. split; [done|].
    apply not_elem_of_nil.
  - rewrite IH, not_elem_of_cons. unfold bow_step.
    destruct (decide (t' = t)) as [->|Hne].
    + rewrite lookup_insert_eq. split; [by intros [? _]|].
      by intros [_ [? _]].
    + rewrite lookup_insert_ne by done. split.
      * intros [? ?]. repeat split; [done|congruence|done].
      * by intros [? [_ ?]].
Qed.

(** X3. The bag of words maps every token of the text to the number of
    times it occurs, and has no other key. *)
Theorem bow_counts_occurrences (text t : string) :
  let n := count_occ string_dec (_tokenize text) t in
  _bow text !! t = if Nat.eqb n 0 then None else Some (Z.of_nat n).
Proof.
  intros n. unfold _bow.
  pose proof (foldl_bow_step_count (_tokenize text) ∅ t) as Hcount.
  pose proof (foldl_bow_step_lookup_none (_tokenize text) ∅ t) as Hnone.
  fold n in Hcount. unfold count_of in Hcount. rewrite lookup_empty in *.
  simpl in Hcount.
  destruct (Nat.eqb_spec n 0) as [Hn|Hn].
  - apply Hnone. split; [done|].
    rewrite list_elem_of_In. by apply count_occ_not_In in Hn.
  - destruct (foldl bow_step ∅ (_tokenize text) !! t) as [v|] eqn:Hv.
    + simpl in Hcount. by rewrite Hcount.
    + simpl in Hcount. lia.
Qed.

End TokenProps.

(** ** The range of the text similarity *)

Section CosineProps.
Import Ranking.
Local Open Scope Z_scope.

Implicit Types (a b : gmap string Z).







Lemma dot_product_nonneg a b :
  map_Forall (fun _ v => 0 < v) a -> map_Forall (fun _ v => 0 < v) b ->
  0 <= dot_product a b.
Proof.
  intros Ha Hb. apply dict_sum_nonneg. intros k v Hk.
  rewrite dot_term_count. unfold count_of.
  apply Ha in Hk. simpl in Hk.
  destruct (b !! k) as [y|] eqn:Hy; simpl; [|lia].
  apply Hb in Hy. simpl in Hy. nia.
Qed.

(** The dot product is positive exactly when the two bags share a key. *)
Lemma dot_product_pos_iff a b :
  map_Forall (fun _ v => 0 < v) a -> map_Forall (fun _ v => 0 < v) b ->
  0 < dot_product a b
  <-> exists k, is_Some (a !! k) /\ is_Some (b !! k).
Proof.
  intros Ha Hb. split.
  - intros Hpos.
    destruct (Classical_Prop.classic
                (exists k, is_Some (a !! k) /\ is_Some (b !! k)))
      as [|Hno]; [done|].
    exfalso. assert (dot_product a b = 0); [|lia].
    unfold dot_product. rewrite (dict_sum_ext _ (fun _ _ => 0)).
    + clear. induction a as [|k v a Hk IH] using map_ind.
      * by rewrite dict_sum_empty.
      * rewrite dict_sum_insert by done. lia.
    + intros k v Hk. rewrite dot_term_count. unfold count_of.
      destruct (b !! k) as [y|] eqn:Hy; simpl; [|lia].
      destruct Hno. exists k. by rewrite Hk, Hy.
  - intros (k & [x Hx] & [y Hy]).
    rewrite <- (insert_delete_id a k x Hx).
    unfold dot_product. rewrite dict_sum_insert by apply lookup_delete_eq.
    rewrite dot_term_count. unfold count_of. rewrite Hy. simpl.
    assert (0 <= dot_product (delete k a) b) as Hrest.
    { apply dot_product_nonneg; [|done].
      intros k' v' Hk'. apply (Ha k').
      by apply lookup_delete_Some in Hk' as [_ ?]. }
    unfold dot_product in Hrest.
    apply Ha in Hx. apply Hb in Hy. simpl in *. nia.
Qed.



Lemma bow_lookup_is_Some (text t : string) :
  is_Some (_bow text !! t) <-> t ∈ _tokenize text.
Proof.
  pose proof (foldl_bow_step_lookup_none (_tokenize text) ∅ t) as Hnone.
  fold (_bow text) in Hnone. rewrite lookup_empty in Hnone.
  rewrite <- not_eq_None_Some. split.
  - intros Hsome. destruct (decide (t ∈ _tokenize text)); [done|].
    destruct Hsome. by apply Hnone.
  - intros Hin Hn. by apply Hnone in Hn as [_ ?].
Qed.

Lemma cosine_sim_pos_iff a b :
  map_Forall (fun _ v => 0 < v) a -> map_Forall (fun _ v => 0 < v) b ->
  (0 < _cosine_sim a b)%R
  <-> exists k, is_Some (a !! k) /\ is_Some (b !! k).
Proof.
  intros Ha Hb. rewrite <- (dot_product_pos_iff a b Ha Hb).
  unfold _cosine_sim.
  destruct (bool_decide (a = ∅)) eqn:Hae.
  { apply bool_decide_eq_true in Hae. subst a. simpl.
    unfold dot_product. rewrite dict_sum_empty. split; [lra|lia]. }
  destruct (bool_decide (b = ∅)) eqn:Hbe.
  { apply bool_decide_eq_true in Hbe. subst b. simpl.
    rewrite dot_product_comm. unfold dot_product. rewrite dict_sum_empty.
    split; [lra|lia]. }
  apply bool_decide_eq_false in Hae, Hbe. simpl.
  assert (0 < sum_squares a) as Hsa.
  { apply dict_sum_pos; [done|]. intros k v Hk. apply Ha in Hk.
    simpl in Hk. nia. }
  assert (0 < sum_squares b) as Hsb.
  { apply dict_sum_pos; [done|]. intros k v Hk. apply Hb in Hk.
    simpl in Hk. nia. }
  pose proof (sqrt_lt_R0 _ (IZR_lt _ _ Hsa)) as Hna.
  pose proof (sqrt_lt_R0 _ (IZR_lt _ _ Hsb)) as Hnb.
  destruct (Req_dec_T _ _) as [|_]; [lra|].
  destruct (Req_dec_T _ _) as [|_]; [lra|].
  set (na := sqrt (IZR (sum_squares a))) in *.
  set (nb := sqrt (IZR (sum_squares b))) in *.
  assert (0 < na * nb)%R as Hn by nra.
  split.
  - intros Hpos. apply lt_IZR.
    destruct (Rlt_dec 0 (IZR (dot_product a b))) as [|Hle]; [done|].
    exfalso. apply Rnot_lt_le in Hle.
    pose proof (Rinv_0_lt_compat _ Hn) as Hinv.
    unfold Rdiv in Hpos. nra.
  - intros Hpos. apply IZR_lt in Hpos.
    pose proof (Rinv_0_lt_compat _ Hn) as Hinv.
    unfold Rdiv. nra.
Qed.

(** X5. The text similarity of two texts is positive exactly when they
    share a token, and so it is 0.0 exactly when they share none. *)
Theorem text_similarity_pos_iff_shared_token (q t : string) :
  (0 < text_similarity (Some q) (Some t))%R
  <-> exists tok, tok ∈ _tokenize q /\ tok ∈ _tokenize t.
Proof.
  assert ((exists tok, tok ∈ _tokenize q /\ tok ∈ _tokenize t)
          <-> exists k, is_Some (_bow q !! k) /\ is_Some (_bow t !! k))
    as ->.
  { split; intros (k & H1 & H2); exists k;
      by rewrite ?bow_lookup_is_Some in *. }
  rewrite <- cosine_sim_pos_iff by apply bow_pos.
  unfold text_similarity.
  destruct q as [|c q].
  { simpl. unfold _cosine_sim. rewrite bool_decide_eq_true_2 by done.
    done. }
  destruct t as [|c' t]; [|done].
  cbn [falsy orb]. unfold _cosine_sim.
  change (_bow "") with (∅ : gmap string Z).
  rewrite (bool_decide_eq_true_2 (∅ = ∅)) by done.
  by rewrite orb_true_r.
Qed.

End CosineProps.

(** ** Exact matches and weights *)

Section BoostProps.
Import Ranking.
Local Open Scope R_scope.

(** X6. [exact_match_boost] is symmetric and takes the values 0.0 and 1.0
    only. *)
Theorem exact_match_boost_symmetric_binary (a b : option string) :
  exact_match_boost a b = exact_match_boost b a
  /\ (exact_match_boost a b = 0 \/ exact_match_boost a b = 1).
Proof.
  unfold exact_match_boost.
  destruct a as [sa|], b as [sb|]; try (split; [done|by left]).
  rewrite (orb_comm (falsy (Some sa))).
  rewrite (String.eqb_sym (lower (strip sa))).
  split; [done|].
  destruct (_ || _); [by left|].
  destruct (String.eqb _ _); [by right|by left].
Qed.

Lemma effective_weight (ws : gmap string R) (k : string) :
  weight (effective_weights (Some ws)) k = weight_or_default ws k.
Proof.
  unfold weight_or_default, weight, effective_weights.
  rewrite lookup_union.
  by destruct (ws !! k) as [x|], (default_weights !! k) as [y|].
Qed.

(** X7. A [weights] argument replaces exactly the weights whose keys it
    has, the others keep their defaults, and whatever the weights and the
    components are, the score lies in [0,1]. *)
Theorem compute_final_score_weights_override (v : option R)
    (c cat t : R) (ws : gmap string R) :
  compute_final_score v c cat t (Some ws)
  = clamp01 (weight_or_default ws "vector" * vector_value v
             + weight_or_default ws "color" * c
             + weight_or_default ws "category" * cat
             + weight_or_default ws "text" * t)
  /\ 0 <= compute_final_score v c cat t (Some ws) <= 1.
Proof.
  assert (forall x, 0 <= clamp01 x <= 1) as Hclamp.
  { intros x. unfold clamp01. repeat (destruct (Rle_dec _ _); try lra). }
  unfold compute_final_score. cbv zeta.
  rewrite !effective_weight, Rmax_Rmin_clamp01.
  split; [done|apply Hclamp].
Qed.

End BoostProps.

(** ** Re-ranking: flags and repetition *)

Section SortDescMore.
Import Ranking.
Context {A B : Type}.

Lemma insert_desc_map_snd (h : A -> B) (x : R * A) (l : list (R * A)) :
  insert_desc (prod_map id h x) (map (prod_map id h) l)
  = map (prod_map id h) (insert_desc x l).
Proof.
  destruct x as [kx ax].
  induction l as [|[ky ay] l IH]; simpl; [done|].
  unfold id at 1 2. destruct (Rlt_dec kx ky); simpl; [|done].
  by rewrite <- IH.
Qed.

Lemma sort_desc_map_snd (h : A -> B) (l : list (R * A)) :
  sort_desc (map (prod_map id h) l) = map (prod_map id h) (sort_desc l).
Proof.
  induction l as [|x l IH]; simpl; [done|].
  fold (sort_desc l). fold (sort_desc (map (prod_map id h) l)).
  by rewrite IH, insert_desc_map_snd.
Qed.

Lemma sort_desc_sorted_id (l : list (R * A)) :
  StronglySorted key_ge l -> sort_desc l = l.
Proof.
  induction 1 as [|x l Hl IH Hx]; simpl; [done|].
  fold (sort_desc l). rewrite IH.
  destruct l as [|y l']; simpl; [done|].
  apply Forall_cons in Hx as [Hy _]. unfold key_ge in Hy.
  destruct (Rlt_dec (fst x) (fst y)); [lra|done].
Qed.

End SortDescMore.

Section RerankMore.
Import Ranking.

Variables (query_text query_color query_category : option string).
Variable weights : option (gmap string R).
Variables (add_score_field add_debug_scores : bool).

Lemma score_one_decorate (res : result_like) :
  score_one query_text query_color query_category weights
    add_score_field add_debug_scores res
  = prod_map id (decorate query_text query_color query_category weights
                 add_score_field add_debug_scores)
      (score_one query_text query_color query_category weights
         false false res).
Proof. done. Qed.

(** X8. The two flags never change the order: the list returned with
    [add_score_field] and [add_debug_scores] is the list returned without
    them, each dictionary with the fields the flags add. *)
Theorem rerank_results_flags_keep_order (results : list result_like) :
  rerank_results query_text query_color query_category weights
    add_score_field add_debug_scores results
  = map (decorate query_text query_color query_category weights
           add_score_field add_debug_scores)
      (rerank_results query_text query_color query_category weights
         false false results).
Proof.
  unfold rerank_results.
  rewrite (map_ext _ _ score_one_decorate).
  rewrite <- (map_map _ (prod_map id _)).
  rewrite sort_desc_map_snd, !map_map.
  by apply map_ext.
Qed.

Lemma score_of_decorate (rd : ResultDict.t) :
  score_of query_text query_color query_category weights
    (decorate query_text query_color query_category weights
       add_score_field add_debug_scores rd)
  = score_of query_text query_color query_category weights rd.
Proof.
  unfold decorate, annotate, score_one. simpl.
  by destruct add_score_field, add_debug_scores.
Qed.

Lemma score_one_again (res : result_like) :
  let p :=
    score_one query_text query_color query_category weights
      add_score_field add_debug_scores res in
  score_one query_text query_color query_category weights
    add_score_field add_debug_scores (IsDict (snd p)) = p.
Proof.
  unfold score_one. simpl.
  by destruct add_score_field, add_debug_scores.
Qed.

(** X9. Re-ranking is idempotent: re-ranking its own output with the same
    query, weights and flags returns that output unchanged. *)
Theorem rerank_results_idempotent (results : list result_like) :
  rerank_results query_text query_color query_category weights
    add_score_field add_debug_scores
    (map IsDict
       (rerank_results query_text query_color query_category weights
          add_score_field add_debug_scores results))
  = rerank_results query_text query_color query_category weights
      add_score_field add_debug_scores results.
Proof.
  unfold rerank_results.
  set (scored :=
         sort_desc
           (map (score_one query_text query_color query_category weights
                   add_score_field add_debug_scores) results)).
  assert (map (score_one query_text query_color query_category weights
                 add_score_field add_debug_scores)
            (map IsDict (map snd scored)) = scored) as ->.
  { rewrite !map_map.
    assert (Forall (fun p =>
              score_one query_text query_color query_category weights
                add_score_field add_debug_scores (IsDict (snd p)) = p)
              scored) as Hall.
    { unfold scored. rewrite sort_desc_perm.
      apply Forall_map, Forall_forall. intros res _.
      apply score_one_again. }
    clearbody scored. induction Hall as [|p l Hp _ IH]; simpl; [done|].
    by rewrite Hp, IH. }
  by rewrite sort_desc_sorted_id by apply sort_desc_sorted.
Qed.

End RerankMore.

(** ** The vector search and the text search *)

Section SearchMore.
Import SearchService.

Lemma filter_sublist_of {A} (f : A -> bool) (l : list A) :
  List.filter f l `sublist_of` l.
Proof.
  induction l as [|x l IH]; simpl; [done|].
  destruct (f x); by constructor.
Qed.

Lemma passes_satisfies (f actual : option string) :
  passes f actual = true -> satisfies f actual.
Proof.
  unfold passes, satisfies, given. destruct (Ranking.falsy f); [done|].
  intros Hp c ->. by apply bool_decide_eq_true in Hp.
Qed.

(** X10. For a limit [top_k >= 0] the vector search returns at most
    [top_k] results; each has the category and the color that were asked
    for, whatever the index returned; and the results are hits of the
    index, in the order of the index. *)
Theorem search_by_vector_bounded_filtered (be : Backend)
    (query_vector : list R) (top_k : Z)
    (category_filter color_filter : option string)
    (results : list SearchResult.t) :
  (0 <= top_k)%Z ->
  search_by_vector be query_vector top_k category_filter color_filter
  = Return results ->
  (length results <= Z.to_nat top_k)%nat
  /\ Forall
       (fun r =>
          satisfies category_filter (SearchResult.category r)
          /\ satisfies color_filter (SearchResult.color r))
       results
  /\ exists raws : list RawResult,
       client_search_by_vector be query_vector top_k
         (given category_filter) (given color_filter) = Return raws
       /\ results `sublist_of` map result_of_raw raws.
Proof.
  intros Hk. unfold search_by_vector.
  destruct (client_search_by_vector _ _ _ _ _) as [raws|]; [|done].
  simpl. intros [= <-]. unfold slice_to.
  apply Z.leb_le in Hk as ->. split; [|split].
  - rewrite length_take. lia.
  - apply Forall_take, Forall_map, Forall_forall. intros raw Hraw.
    apply list_elem_of_In, filter_In in Hraw as [_ Hp].
    apply andb_true_iff in Hp as [Hcat Hcol]. simpl.
    split; by apply passes_satisfies.
  - exists raws. split; [done|].
    etrans; [apply sublist_take|].
    apply fmap_sublist, filter_sublist_of.
Qed.

Lemma search_by_vector_bounded_filtered_witness :
  (length [result_of_raw running_shoes] <= Z.to_nat 5)%nat
  /\ Forall
       (fun r =>
          satisfies (Some "footwear") (SearchResult.category r)
          /\ satisfies None (SearchResult.color r))
       [result_of_raw running_shoes]
  /\ exists raws : list RawResult,
       client_search_by_vector one_hit_backend [1%R; 0%R] 5
         (given (Some "footwear")) (given None) = Return raws
       /\ [result_of_raw running_shoes] `sublist_of` map result_of_raw raws.
Proof.
  apply (search_by_vector_bounded_filtered one_hit_backend [1%R; 0%R] 5
           (Some "footwear") None).
  - lia.
  - reflexivity.
Defined.

Lemma slice_to_slice_to {A} (k : Z) (l : list A) :
  (0 <= k)%Z -> slice_to k (slice_to k l) = slice_to k l.
Proof.
  intros Hk. unfold slice_to. apply Z.leb_le in Hk as ->.
  by rewrite take_take, Nat.min_id.
Qed.

(** X11. With re-ranking disabled and a limit [top_k >= 0], the text
    search is the vector search for the embedding of the query: same
    results, same failures. *)
Theorem search_by_text_without_reranking (be : Backend)
    (query_text : string) (top_k : Z)
    (category_filter color_filter : option string) (enable_debug : bool) :
  (0 <= top_k)%Z ->
  search_by_text be query_text top_k category_filter color_filter false
    enable_debug
  = (query_vector <- embed_text be query_text;;
     search_by_vector be query_vector top_k category_filter color_filter).
Proof.
  intros Hk. unfold search_by_text, fetch_limit.
  destruct (embed_text be query_text) as [v|]; [|done]. simpl.
  unfold search_by_vector.
  destruct (client_search_by_vector _ _ _ _ _) as [raws|]; [|done].
  simpl. by rewrite slice_to_slice_to.
Qed.

Lemma search_by_text_without_reranking_witness :
  search_by_text one_hit_backend "shoes" 5 None None false false
  = (query_vector <- embed_text one_hit_backend "shoes";;
     search_by_vector one_hit_backend query_vector 5 None None).
Proof. apply search_by_text_without_reranking. lia. Defined.

Lemma rerank_results_sorted
    (query_text query_color query_category : option string)
    (weights : option (gmap string R)) (add_debug_scores : bool)
    (results : list Ranking.result_like) :
  StronglySorted final_score_ge
    (Ranking.rerank_results query_text query_color query_category weights
       true add_debug_scores results).
Proof.
  unfold Ranking.rerank_results.
  apply sorted_map_snd; [apply sort_desc_keyed|apply sort_desc_sorted].
Qed.

Lemma result_of_reranked_sorted (l : list ResultDict.t) :
  StronglySorted final_score_ge l ->
  StronglySorted similarity_ge (map result_of_reranked l).
Proof.
  induction 1 as [|rd l Hl IH Hrd]; simpl; constructor; [done|].
  apply Forall_map. eapply Forall_impl; [exact Hrd|].
  intros rd' (x & y & Hx & Hy & Hxy). exists x, y.
  unfold result_of_reranked. simpl. by rewrite Hx, Hy.
Qed.

(** X12. With re-ranking enabled and a limit [top_k >= 0], the text
    search returns the best [top_k] of the candidates it fetched: the
    fetched results, re-scored, are the returned ones followed by dropped
    ones, in descending order of the returned [similarity] throughout, so
    that no dropped candidate scores higher than a returned one. *)
Theorem search_by_text_returns_best_candidates (be : Backend)
    (query_text : string) (top_k : Z)
    (category_filter color_filter : option string) (enable_debug : bool)
    (results : list SearchResult.t) :
  (0 <= top_k)%Z ->
  search_by_text be query_text top_k category_filter color_filter true
    enable_debug = Return results ->
  exists (query_vector : list R) (fetched dropped : list SearchResult.t),
    embed_text be query_text = Return query_vector
    /\ search_by_vector be query_vector (Z.max 30 (top_k * 3))
         category_filter color_filter = Return fetched
    /\ map (rescored query_text category_filter color_filter enable_debug)
         fetched ≡ₚ results ++ dropped
    /\ StronglySorted similarity_ge (results ++ dropped)
    /\ length results = Nat.min (Z.to_nat top_k) (length fetched).
Proof.
  intros Hk. unfold search_by_text, fetch_limit.
  destruct (embed_text be query_text) as [v|]; [|done]. simpl.
  destruct (search_by_vector _ _ _ _ _) as [fetched|] eqn:Hfetch; [|done].
  simpl. unfold slice_to. apply Z.leb_le in Hk as ->.
  destruct (Nat.eqb_spec (length fetched) 0) as [Hlen|_].
  { apply length_zero_iff_nil in Hlen as ->. rewrite take_nil.
    intros [= <-]. exists v, [], []. repeat split; try done.
    - constructor.
    - simpl. lia. }
  set (ranked :=
         Ranking.rerank_results (Some query_text) color_filter
           category_filter None true enable_debug
           (map Ranking.IsDict (map to_dict fetched))).
  intros [= <-].
  exists v, fetched, (map result_of_reranked (drop (Z.to_nat top_k) ranked)).
  assert (ranked
          ≡ₚ map (annotate (Some query_text) color_filter category_filter
                    None true enable_debug)
               (map Ranking.IsDict (map to_dict fetched))) as Hperm
    by apply rerank_results_perm.
  rewrite <- map_app, take_drop. repeat split; try done.
  - rewrite Hperm, !map_map. done.
  - apply result_of_reranked_sorted, rerank_results_sorted.
  - rewrite length_map, length_take, Hperm, !length_map. done.
Qed.

Lemma search_by_text_returns_best_candidates_witness :
  exists (query_vector : list R) (fetched dropped : list SearchResult.t),
    embed_text one_hit_backend "shoes" = Return query_vector
    /\ search_by_vector one_hit_backend query_vector (Z.max 30 (5 * 3))
         None None = Return fetched
    /\ map (rescored "shoes" None None false) fetched
       ≡ₚ [reranked_result "shoes" None None false running_shoes] ++ dropped
    /\ StronglySorted similarity_ge
         ([reranked_result "shoes" None None false running_shoes] ++ dropped)
    /\ length [reranked_result "shoes" None None false running_shoes]
       = Nat.min (Z.to_nat 5) (length fetched).
Proof.
  apply (search_by_text_returns_best_candidates one_hit_backend "shoes" 5
           None None false).
  - lia.
  - reflexivity.
Defined.

End SearchMore.

(** ** The A/B search endpoint: status codes and logging *)

Section EndpointMore.
Import SearchVariants ABSearch.

Lemma slice_to_length {A} (k : Z) (l : list A) :
  (0 <= k)%Z -> (length (SearchService.slice_to k l) <= Z.to_nat k)%nat.
Proof.
  intros Hk. unfold SearchService.slice_to. apply Z.leb_le in Hk as ->.
  rewrite length_take. lia.
Qed.

Lemma search_by_text_length (be : SearchService.Backend)
    (query_text : string) (top_k : Z)
    (category_filter color_filter : option string)
    (enable_reranking enable_debug : bool)
    (results : list SearchResult.t) :
  (0 <= top_k)%Z ->
  SearchService.search_by_text be query_text top_k category_filter
    color_filter enable_reranking enable_debug = Return results ->
  (length results <= Z.to_nat top_k)%nat.
Proof.
  intros Hk. unfold SearchService.search_by_text.
  destruct (SearchService.embed_text be query_text) as [v|]; [|done]. simpl.
  destruct (SearchService.search_by_vector _ _ _ _ _) as [fetched|];
    [|done].
  simpl. destruct (_ || _); intros [= <-].
  - by apply slice_to_length.
  - rewrite length_map. by apply slice_to_length.
Qed.

Lemma product_results_of_length (rs : list SearchResult.t)
    (ps : list ProductResult) :
  product_results_of rs = Return ps -> length ps = length rs.
Proof.
  revert ps. induction rs as [|r rs IH]; simpl; intros ps.
  { by intros [= <-]. }
  destruct (product_result_of r) as [p|]; [|done]. simpl.
  destruct (product_results_of rs) as [ps'|]; [|done]. simpl.
  intros [= <-]. simpl. by rewrite (IH ps').
Qed.

(** What a variant returns, and how it fails. *)
Lemma search_by_text_of_outcome (sv : search_variant)
    (be : SearchService.Backend) (query_text : string) (top_k : Z)
    (category_filter color_filter : option string) (debug : bool)
    (elapsed : Q) :
  (0 <= top_k)%Z ->
  match search_by_text_of sv be query_text top_k category_filter
          color_filter debug elapsed with
  | Return (products, time) =>
      time = elapsed /\ (length products <= Z.to_nat top_k)%nat
  | Raise e => exists msg, e = Exception msg
  end.
Proof.
  intros Hk.
  assert (forall prefix rerank,
    match guarded prefix elapsed
            (run_search be rerank query_text top_k category_filter
               color_filter debug) with
    | Return (products, time) =>
        time = elapsed /\ (length products <= Z.to_nat top_k)%nat
    | Raise e => exists msg, e = Exception msg
    end) as Hguarded.
  { intros prefix rerank. unfold guarded, run_search.
    destruct (SearchService.search_by_text _ _ _ _ _ _ _) as [rs|] eqn:Hrs;
      simpl; [|by eexists].
    destruct (product_results_of rs) as [ps|] eqn:Hps; [|by eexists].
    split; [done|]. apply product_results_of_length in Hps as ->.
    by eapply search_by_text_length. }
  destruct sv; apply Hguarded.
Qed.

Lemma assignment_for_outcome (self : ABTesting.ExperimentManager)
    (u : string) (rand : Q) (now : ABTesting.datetime) :
  match ABTesting.assignment_for self u rand now with
  | Return (a, self') =>
      ABTesting._events self' = ABTesting._events self
      /\ (keeps_assignments self ->
          ABTesting.get_assignment self' u = Some a)
  | Raise e => exists msg, e = IndexError msg
  end.
Proof.
  unfold ABTesting.assignment_for.
  destruct (ABTesting.get_assignment self u) as [a|] eqn:Hget; [done|].
  destruct (ABTesting.assign_variant self u None rand now) as [[a self']|e]
    eqn:Ha.
  - split.
    + unfold ABTesting.assign_variant in Ha. rewrite Hget in Ha.
      destruct (ABTesting.variants self !! _) as [v|]; [|done].
      injection Ha as <- <-. unfold ABTesting._store_assignment.
      by repeat (destruct (String.eqb _ _)).
    + intros Hk. by eapply assign_variant_stores.
  - unfold ABTesting.assign_variant in Ha. rewrite Hget in Ha.
    destruct (ABTesting.variants self !! _) as [v|]; [done|].
    injection Ha as <-. by eexists.
Qed.

Lemma log_search_outcome (self : ABTesting.ExperimentManager)
    (u q : string) (n : Z) (t : Q) (sid : option string) (rand : Q)
    (now stamp : ABTesting.datetime) :
  match ABTesting.log_search self u q n t sid rand now stamp with
  | Return (e, self') =>
      exists variant,
        e = ABTesting.ExperimentEvent.SearchEvent
              (ABTesting.ExperimentEvent.Base u variant stamp (Some q) sid ∅)
              n t "search"
        /\ ABTesting._events self' = ABTesting._events self ++ [e]
        /\ (keeps_assignments self ->
            exists a, ABTesting.get_assignment self' u = Some a
                      /\ ABTesting.ExperimentAssignment.variant a = variant)
  | Raise e => exists msg, e = IndexError msg
  end.
Proof.
  unfold ABTesting.log_search.
  pose proof (assignment_for_outcome self u rand now) as Hfor.
  destruct (ABTesting.assignment_for self u rand now) as [[a self1]|e];
    simpl; [|done].
  destruct Hfor as [Hev Hget]. eexists. split; [done|]. split.
  - by rewrite Hev.
  - intros Hk. exists a. split; [|done]. by apply Hget.
Qed.

Lemma get_search_variant_known (variant : string) :
  match get_search_variant variant with
  | Return _ => variant = "search_v1" \/ variant = "search_v2"
  | Raise e =>
      variant <> "search_v1" /\ variant <> "search_v2"
      /\ exists msg, e = ValueError msg
  end.
Proof.
  unfold get_search_variant.
  destruct (String.eqb_spec variant "search_v1") as [|H1]; [by left|].
  destruct (String.eqb_spec variant "search_v2") as [|H2]; [by right|].
  repeat split; [done..|by eexists].
Qed.

(** X13. A request that passes the validation is answered with status
    400 exactly when its variant is neither [search_v1] nor [search_v2];
    every other failure -- of the search or of the logging -- has status
    500. *)
Theorem search_by_text_ab_400_iff_unknown_variant
    (be : SearchService.Backend) (manager : ABTesting.ExperimentManager)
    (env : Env) (variant user_id : string) (session_id : option string)
    (query : string) (top_k : Z) (category color : option string)
    (debug : bool) :
  query <> EmptyString -> (1 <= top_k <= 100)%Z ->
  ((exists detail,
       search_by_text_ab be manager env variant user_id session_id query
         top_k category color debug = Raise (HTTPException 400 detail))
   <-> variant <> "search_v1" /\ variant <> "search_v2")
  /\ forall e,
       search_by_text_ab be manager env variant user_id session_id query
         top_k category color debug = Raise e ->
       exists detail,
         e = HTTPException 400 detail \/ e = HTTPException 500 detail.
Proof.
  intros Hquery Htop. unfold search_by_text_ab.
  destruct query as [|c query]; [done|]. simpl String.length.
  destruct (Z.ltb_spec top_k 1); [lia|].
  destruct (Z.ltb_spec 100 top_k); [lia|]. simpl.
  unfold try_search.
  pose proof (get_search_variant_known variant) as Hv.
  destruct (get_search_variant variant) as [sv|e0]; simpl.
  - pose proof (search_by_text_of_outcome sv be (String c query) top_k
                  category color debug (elapsed_ms env)) as Hs.
    destruct (search_by_text_of sv _ _ _ _ _ _ _) as [[ps time]|e1]; simpl.
    + pose proof (log_search_outcome manager user_id (String c query)
                    (Z.of_nat (length ps)) time session_id (rand env)
                    (now env) (stamp env)) as Hl.
      destruct (ABTesting.log_search _ _ _ _ _ _ _ _ _) as [[ev m']|e2];
        simpl.
      * split; [|done]. split; [by intros [? ?]|].
        intros [H1 H2]. by destruct Hv.
      * destruct Hl as [msg ->]. split.
        -- split; [by intros [? ?]|]. intros [H1 H2]. by destruct Hv.
        -- intros e [= <-]. eexists. by right.
    + destruct Hs as [msg ->]; [lia|]. split.
      * split; [by intros [? ?]|]. intros [H1 H2]. by destruct Hv.
      * intros e [= <-]. eexists. by right.
  - destruct Hv as (H1 & H2 & msg & ->). split.
    + split; [done|]. intros _. by eexists.
    + intros e [= <-]. eexists. by left.
Qed.

Lemma search_by_text_ab_400_iff_unknown_variant_witness :
  exists detail,
    search_by_text_ab one_hit_backend
      (ABTesting.init None (1 # 2) "memory" false) sample_env
      "search_v3" "u1" None "shoes" 5 None None false
    = Raise (HTTPException 400 detail).
Proof.
  apply (proj1 (search_by_text_ab_400_iff_unknown_variant one_hit_backend
                  (ABTesting.init None (1 # 2) "memory" false) sample_env
                  "search_v3" "u1" None "shoes" 5 None None false
                  ltac:(done) ltac:(lia))).
  by split.
Defined.

Lemma search_by_text_ab_returns
    (be : SearchService.Backend) (manager : ABTesting.ExperimentManager)
    (env : Env) (variant user_id : string) (session_id : option string)
    (query : string) (top_k : Z) (category color : option string)
    (debug : bool) (response : SearchResponse)
    (manager' : ABTesting.ExperimentManager) :
  search_by_text_ab be manager env variant user_id session_id query
    top_k category color debug = Return (response, manager') ->
  exists (sv : search_variant) (event : ABTesting.ExperimentEvent.t),
    get_search_variant variant = Return sv
    /\ search_by_text_of sv be query top_k category color debug
         (elapsed_ms env)
       = Return (results response, elapsed_ms env)
    /\ ABSearch.query response = query
    /\ total_results response = length (results response)
    /\ (length (results response) <= Z.to_nat top_k)%nat
    /\ ABTesting.log_search manager user_id query
         (Z.of_nat (length (results response))) (elapsed_ms env) session_id
         (rand env) (now env) (stamp env)
       = Return (event, manager').
Proof.
  unfold search_by_text_ab.
  destruct (_ || _) eqn:Hvalid; [done|].
  apply orb_false_iff in Hvalid as [Hvalid _].
  apply orb_false_iff in Hvalid as [_ Htop]. apply Z.ltb_ge in Htop.
  unfold try_search.
  destruct (get_search_variant variant) as [sv|[]] eqn:Hsv; simpl;
    try done.
  pose proof (search_by_text_of_outcome sv be query top_k category color
                debug (elapsed_ms env)) as Hs.
  destruct (search_by_text_of sv _ _ _ _ _ _ _) as [[ps time]|[]] eqn:Hrun;
    simpl; try done.
  destruct Hs as [-> Hlen]; [lia|].
  destruct (ABTesting.log_search _ _ _ _ _ _ _ _ _) as [[ev m']|[]] eqn:Hlog;
    simpl; try done.
  intros [= <- <-]. simpl. exists sv, ev. by repeat split.
Qed.

(** X14. A request that succeeds returns at most [top_k] results with
    their number as [total_results], and appends exactly one event to the
    log: a search event of the user, the query and the session, with that
    number as its [results_count].  The variant recorded in the event is
    the one the experiment manager assigns the user, whatever variant ran
    the search. *)
Theorem search_by_text_ab_success_logs_one_search
    (be : SearchService.Backend) (manager : ABTesting.ExperimentManager)
    (env : Env) (variant user_id : string) (session_id : option string)
    (query : string) (top_k : Z) (category color : option string)
    (debug : bool) (response : SearchResponse)
    (manager' : ABTesting.ExperimentManager) :
  search_by_text_ab be manager env variant user_id session_id query
    top_k category color debug = Return (response, manager') ->
  ABSearch.query response = query
  /\ total_results response = length (results response)
  /\ (length (results response) <= Z.to_nat top_k)%nat
  /\ exists recorded : ABTesting.ExperimentVariant,
       ABTesting._events manager'
       = ABTesting._events manager
         ++ [ABTesting.ExperimentEvent.SearchEvent
               (ABTesting.ExperimentEvent.Base user_id recorded (stamp env)
                  (Some query) session_id ∅)
               (Z.of_nat (total_results response)) (elapsed_ms env)
               "search"]
       /\ (keeps_assignments manager ->
           exists a,
             ABTesting.get_assignment manager' user_id = Some a
             /\ ABTesting.ExperimentAssignment.variant a = recorded).
Proof.
  intros Hab.
  apply search_by_text_ab_returns in Hab
    as (sv & event & _ & _ & Hq & Htotal & Hlen & Hlog).
  split; [done|]. split; [done|]. split; [done|].
  pose proof (log_search_outcome manager user_id query
                (Z.of_nat (length (results response))) (elapsed_ms env)
                session_id (rand env) (now env) (stamp env)) as Hl.
  rewrite Hlog in Hl. destruct Hl as (recorded & -> & Hev & Hget).
  exists recorded. by rewrite Htotal.
Qed.

Lemma search_by_text_ab_success_logs_one_search_witness :
  exists (response : SearchResponse)
         (manager' : ABTesting.ExperimentManager),
    search_by_text_ab one_hit_backend
      (ABTesting.init None (1 # 2) "memory" false) sample_env
      "search_v1" "u1" None "shoes" 5 None None false
    = Return (response, manager')
    /\ ABSearch.query response = "shoes".
Proof.
  do 2 eexists. split; [reflexivity|].
  refine (proj1 (search_by_text_ab_success_logs_one_search one_hit_backend
                   (ABTesting.init None (1 # 2) "memory" false) sample_env
                   "search_v1" "u1" None "shoes" 5 None None false _ _ _)).
  reflexivity.
Defined.

End EndpointMore.

(** ** The experiment manager: failures, the log, the metrics *)

Section ManagerMore.
Import ABTesting.

Implicit Types (self : ExperimentManager) (a : ExperimentAssignment.t).

Lemma store_assignment_frame self a :
  variants (_store_assignment self a) = variants self
  /\ split_ratio (_store_assignment self a) = split_ratio self
  /\ _events (_store_assignment self a) = _events self.
Proof.
  unfold _store_assignment. by repeat (destruct (String.eqb _ _)).
Qed.

Lemma assign_variant_frame self (u : string) md rand now :
  let self' := state_after self (assign_variant self u md rand now) in
  variants self' = variants self
  /\ split_ratio self' = split_ratio self
  /\ storage_backend self' = storage_backend self
  /\ _events self' = _events self.
Proof.
  unfold assign_variant.
  destruct (get_assignment self u) as [existing|]; [done|].
  destruct (variants self !! _) as [v|]; [|done]. simpl.
  destruct (store_assignment_frame self
              (ExperimentAssignment.Build u v now (default ∅ md)))
    as (? & ? & ?).
  by rewrite store_assignment_backend.
Qed.

Lemma assignment_for_frame self (u : string) rand now :
  let self' := state_after self (assignment_for self u rand now) in
  variants self' = variants self
  /\ split_ratio self' = split_ratio self
  /\ storage_backend self' = storage_backend self
  /\ _events self' = _events self.
Proof.
  unfold assignment_for.
  destruct (get_assignment self u) as [a|]; [done|].
  apply assign_variant_frame.
Qed.

(** An operation keeps the configuration and only adds to the log. *)
Lemma apply_operation_frame self (op : operation) :
  variants (apply_operation self op) = variants self
  /\ split_ratio (apply_operation self op) = split_ratio self
  /\ storage_backend (apply_operation self op) = storage_backend self
  /\ _events self `prefix_of` _events (apply_operation self op).
Proof.
  destruct op as [u md rand now | e | u q n t s rand now stamp
                  | u p ti pos q s rand now stamp]; simpl.
  - destruct (assign_variant_frame self u md rand now) as (-> & -> & -> & ->).
    done.
  - repeat split; try done. by apply prefix_app_r.
  - unfold log_search.
    pose proof (assignment_for_frame self u rand now) as Hf.
    destruct (assignment_for self u rand now) as [[a self1]|]; simpl in *;
      [|done].
    destruct Hf as (-> & -> & -> & ->). repeat split; try done.
    by apply prefix_app_r.
  - unfold log_click.
    pose proof (assignment_for_frame self u rand now) as Hf.
    destruct (assignment_for self u rand now) as [[a self1]|]; simpl in *;
      [|done].
    destruct Hf as (-> & -> & -> & ->). repeat split; try done.
    by apply prefix_app_r.
Qed.

Lemma run_frame (ops : list operation) self :
  variants (run self ops) = variants self
  /\ split_ratio (run self ops) = split_ratio self
  /\ storage_backend (run self ops) = storage_backend self
  /\ _events self `prefix_of` _events (run self ops).
Proof.
  revert self. induction ops as [|op ops IH]; intros self; [done|].
  simpl. destruct (IH (apply_operation self op)) as (-> & -> & -> & Hp).
  destruct (apply_operation_frame self op) as (-> & -> & -> & Hp').
  repeat split; try done. by etrans.
Qed.

(** X16. The log only grows: whatever operations follow, the events
    logged so far stay the first events of the log, in their order. *)
Theorem events_log_append_only self (ops : list operation) :
  _events self `prefix_of` _events (run self ops).
Proof. apply run_frame. Qed.

(** X17. [assign_variant] fails only for a manager that was created with
    a single variant, for a user without an assignment whose draw is not
    below the split ratio; it reads a second variant that does not exist
    and raises an [IndexError]. *)
Theorem assign_variant_raises_iff (vs : option (list ExperimentVariant))
    (sr : Q) (backend : string) (redis_reachable : bool)
    (ops : list operation) (u : string) (md : option (gmap string string))
    (rand : Q) (now : datetime) :
  let self := run (init vs sr backend redis_reachable) ops in
  ((exists e, assign_variant self u md rand now = Raise e)
   <-> (exists v, vs = Some [v])
       /\ get_assignment self u = None
       /\ Qle_bool sr rand = true)
  /\ forall e, assign_variant self u md rand now = Raise e ->
       e = IndexError "list index out of range".
Proof.
  intros self.
  destruct (run_frame ops (init vs sr backend redis_reachable))
    as (Hvs & Hsr & _ & _).
  fold self in Hvs, Hsr. simpl in Hvs, Hsr.
  unfold assign_variant. rewrite Hvs, Hsr.
  destruct (get_assignment self u) as [existing|].
  { split; [|done]. split; [by intros [? ?]|]. by intros (_ & ? & _). }
  destruct (Qle_bool sr rand).
  - destruct vs as [[|v [|v' vs]]|]; simpl.
    + split; [|done]. split; [by intros [? ?]|]. by intros ([? ?] & _).
    + split; [|by intros e [= <-]].
      split; [|by eexists]. intros _. split; [by eexists|done].
    + split; [|done]. split; [by intros [? ?]|]. by intros ([? ?] & _).
    + split; [|done]. split; [by intros [? ?]|]. by intros ([? ?] & _).
  - assert (exists v l, match vs with
                        | Some (v :: vs0) => v :: vs0
                        | _ => [SEARCH_V1; SEARCH_V2]
                        end = v :: l) as (v & l & ->).
    { destruct vs as [[|v l]|]; by do 2 eexists. }
    simpl. split; [|done]. split; [by intros [? ?]|]. by intros (_ & _ & ?).
Qed.

Lemma get_assignment_log_event self e (u : string) :
  get_assignment (log_event self e) u = get_assignment self u.
Proof. done. Qed.

Lemma attributed_apply_operation self (op : operation) :
  through_manager op ->
  keeps_assignments self ->
  Forall (attributed self) (_events self) ->
  Forall (attributed (apply_operation self op))
    (_events (apply_operation self op)).
Proof.
  intros Hop Hk Hall.
  assert (forall self1,
            (forall (u : string) a,
                get_assignment self u = Some a ->
                get_assignment self1 u = Some a) ->
            Forall (attributed self1) (_events self)) as Hkeep.
  { intros self1 Hsame. eapply Forall_impl; [exact Hall|].
    intros e (a & Hget & Hvar). exists a. split; [by apply Hsame|done]. }
  destruct op as [u md rand now | e | u q n t s rand now stamp
                  | u p ti pos q s rand now stamp]; simpl; [|done| |].
  - destruct (assign_variant_frame self u md rand now) as (_ & _ & _ & ->).
    apply Hkeep. intros u' a Hget.
    by apply (assign_variant_preserves self u' u md rand now a Hk Hget).
  - unfold log_search.
    pose proof (assignment_for_outcome self u rand now) as Hout.
    pose proof (fun u' a' => assignment_for_preserves self u' u rand now a' Hk)
      as Hpres.
    destruct (assignment_for self u rand now) as [[a self1]|]; simpl;
      [|done].
    destruct Hout as [Hev Hget]. rewrite Hev. apply Forall_app. split.
    + eapply Forall_impl; [apply (Hkeep self1)|].
      * intros u' a' Hget'. by apply (Hpres u' a' Hget').
      * by intros e He.
    + constructor; [|done]. exists a. split; [by apply Hget|done].
  - unfold log_click.
    pose proof (assignment_for_outcome self u rand now) as Hout.
    pose proof (fun u' a' => assignment_for_preserves self u' u rand now a' Hk)
      as Hpres.
    destruct (assignment_for self u rand now) as [[a self1]|]; simpl;
      [|done].
    destruct Hout as [Hev Hget]. rewrite Hev. apply Forall_app. split.
    + eapply Forall_impl; [apply (Hkeep self1)|].
      * intros u' a' Hget'. by apply (Hpres u' a' Hget').
      * by intros e He.
    + constructor; [|done]. exists a. split; [by apply Hget|done].
Qed.

Lemma attributed_run (ops : list operation) self :
  Forall through_manager ops ->
  keeps_assignments self ->
  Forall (attributed self) (_events self) ->
  Forall (attributed (run self ops)) (_events (run self ops)).
Proof.
  revert self. induction ops as [|op ops IH]; intros self Hops Hk Hall;
    [done|].
  apply Forall_cons in Hops as [Hop Hops]. simpl. apply IH; [done| |].
  - unfold keeps_assignments.
    by destruct (apply_operation_frame self op) as (_ & _ & -> & _).
  - by apply attributed_apply_operation.
Qed.

(** X18. With the memory or the Redis backend every event that
    [log_search] and [log_click] record is attributed to the variant its
    user is assigned: after any sequence of assignments, searches and
    clicks on a new manager, each event of the log carries the variant that
    [get_assignment] returns for its user. *)
Theorem events_attributed_to_assignment
    (vs : option (list ExperimentVariant)) (sr : Q) (backend : string)
    (redis_reachable : bool) (ops : list operation) :
  let self := run (init vs sr backend redis_reachable) ops in
  keeps_assignments (init vs sr backend redis_reachable) ->
  Forall through_manager ops ->
  Forall (attributed self) (_events self).
Proof.
  intros self Hk Hops. apply attributed_run; [done..|]. constructor.
Qed.

Lemma events_attributed_to_assignment_witness :
  Forall (attributed (run (init None (1 # 2) "memory" false)
                        later_operations))
    (_events (run (init None (1 # 2) "memory" false) later_operations)).
Proof.
  apply (events_attributed_to_assignment None (1 # 2) "memory" false
           later_operations); [by left|].
  repeat constructor.
Defined.

Lemma count_variant_split (events : list ExperimentEvent.t) :
  (count_variant SEARCH_V1 events + count_variant SEARCH_V2 events)%nat
  = length events.
Proof.
  unfold count_variant.
  induction events as [|e events IH]; simpl; [done|].
  destruct (ExperimentEvent.variant (ExperimentEvent.base_of e));
    simpl; lia.
Qed.

Lemma filter_search_click_length (events : list ExperimentEvent.t) :
  (length (List.filter ExperimentEvent.is_search events)
   + length (List.filter ExperimentEvent.is_click events)
   <= length events)%nat.
Proof.
  induction events as [|e events IH]; simpl; [done|].
  destruct e; simpl; lia.
Qed.

(** X19. In the metrics the searches and the clicks are split between
    the two variants without remainder, and together they are no more than
    the events of the log, which may hold events of neither kind. *)
Theorem get_metrics_partition self :
  let m := get_metrics self in
  search_events m = (count (search_v1 m) + count (search_v2 m))%nat
  /\ click_events m = (clicks (search_v1 m) + clicks (search_v2 m))%nat
  /\ (search_events m + click_events m <= total_events m)%nat.
Proof.
  unfold get_metrics. simpl.
  rewrite !count_variant_split. split; [done|]. split; [done|].
  apply filter_search_click_length.
Qed.

Lemma run_redis_assignments (ops : list operation) self :
  storage_backend self = "redis" ->
  _assignments (run self ops) = _assignments self.
Proof.
  revert self. induction ops as [|op ops IH]; intros self Hb; [done|].
  simpl. rewrite IH.
  - assert (forall (u : string) md rand now,
              _assignments (state_after self
                              (assign_variant self u md rand now))
              = _assignments self) as Hassign.
    { intros u md rand now. unfold assign_variant.
      destruct (get_assignment self u) as [existing|]; [done|].
      destruct (variants self !! _) as [v|]; [|done]. simpl.
      unfold _store_assignment. by rewrite Hb. }
    assert (forall (u : string) rand now,
              _assignments (state_after self (assignment_for self u rand now))
              = _assignments self) as Hfor.
    { intros u rand now. unfold assignment_for.
      destruct (get_assignment self u) as [a|]; [done|]. apply Hassign. }
    destruct op as [u md rand now | e | u q n t s rand now stamp
                    | u p ti pos q s rand now stamp]; simpl.
    + apply Hassign.
    + done.
    + unfold log_search. specialize (Hfor u rand now).
      by destruct (assignment_for self u rand now) as [[a self1]|].
    + unfold log_click. specialize (Hfor u rand now).
      by destruct (assignment_for self u rand now) as [[a self1]|].
  - by destruct (apply_operation_frame self op) as (_ & _ & -> & _).
Qed.

(** X20. [reset] clears what is in memory and nothing else: after it the
    log and the metrics are empty and, with the memory backend, nobody is
    assigned; with the Redis backend every assignment is kept. *)
Theorem reset_clears_memory_only self (u : string) :
  _events (reset self) = []
  /\ total_events (get_metrics (reset self)) = 0%nat
  /\ total_assignments (get_metrics (reset self)) = 0%nat
  /\ (storage_backend self = "memory" ->
      get_assignment (reset self) u = None)
  /\ (storage_backend self = "redis" ->
      get_assignment (reset self) u = get_assignment self u).
Proof.
  repeat split.
  - intros Hb. unfold get_assignment, reset. simpl. by rewrite Hb.
  - intros Hb. unfold get_assignment, reset. simpl. by rewrite Hb.
Qed.

Lemma reset_clears_memory_only_witness :
  get_assignment
    (reset (_store_assignment memory_manager first_assignment)) "u" = None.
Proof.
  apply (reset_clears_memory_only
           (_store_assignment memory_manager first_assignment) "u").
  reflexivity.
Defined.

(** X21. [total_assignments] counts the table in memory only: for a
    manager that stores its assignments in Redis it is 0 whatever was
    assigned. *)
Theorem total_assignments_ignores_redis
    (vs : option (list ExperimentVariant)) (sr : Q)
    (ops : list operation) :
  total_assignments (get_metrics (run (init vs sr "redis" true) ops))
  = 0%nat.
Proof.
  unfold get_metrics. simpl.
  by rewrite run_redis_assignments.
Qed.

End ManagerMore.

(** ** Rounding is monotone *)

Section RoundMore.
Import ClickTracking.
Local Open Scope Q_scope.









End RoundMore.

(** ** The comparison of the variants *)

Section ComparisonProps.
Import ClickTracking.
Local Open Scope Q_scope.



End ComparisonProps.

(** ** The ranks of the clicks *)

Section SortedAsc.
Import ClickTracking.
Context {A : Type} (key : A -> Z).

Lemma insert_asc_perm (x : A) (l : list A) : insert_asc key x l ≡ₚ x :: l.
Proof.
  induction l as [|y l IH]; simpl; [done|].
  destruct (key x <=? key y)%Z; [done|].
  rewrite IH. apply Permutation_swap.
Qed.

Lemma sorted_perm (l : list A) : sorted key l ≡ₚ l.
Proof.
  induction l as [|x l IH]; simpl; [done|].
  fold (sorted key l). by rewrite insert_asc_perm, IH.
Qed.

Lemma insert_asc_sorted (x : A) (l : list A) :
  StronglySorted (fun a b => (key a <= key b)%Z) l ->
  StronglySorted (fun a b => (key a <= key b)%Z) (insert_asc key x l).
Proof.
  induction 1 as [|y l Hl IH Hy]; simpl.
  - repeat constructor.
  - destruct (Z.leb_spec (key x) (key y)) as [Hle|Hgt].
    + constructor; [by constructor|].
      constructor; [done|].
      eapply Forall_impl; [exact Hy|]. intros z Hz. simpl in *. lia.
    + constructor; [done|].
      rewrite insert_asc_perm. constructor; [lia|done].
Qed.

Lemma sorted_sorted (l : list A) :
  StronglySorted (fun a b => (key a <= key b)%Z) (sorted key l).
Proof.
  induction l as [|x l IH]; simpl; [constructor|].
  by apply insert_asc_sorted.
Qed.


Lemma sorted_strict (l : list A) :
  StronglySorted (fun a b => (key a <= key b)%Z) l ->
  NoDup (map key l) ->
  StronglySorted (fun a b => (key a < key b)%Z) l.
Proof.
  induction 1 as [|x l Hl IH Hx]; simpl; intros Hnd; [constructor|].
  apply NoDup_cons in Hnd as [Hin Hnd]. constructor; [by apply IH|].
  apply Forall_forall. intros y Hy. rewrite Forall_forall in Hx.
  specialize (Hx y Hy). simpl in Hx.
  assert (key x <> key y); [|lia].
  intros Heq. apply Hin. rewrite Heq. by apply list_elem_of_fmap_2.
Qed.

End SortedAsc.

Section RankProps.
Import ClickTracking.







Lemma foldl_count_step_lookup (rs : list Z) (acc : gmap Z nat) (r : Z) :
  default 0%nat (foldl count_step acc rs !! r)
  = (default 0 (acc !! r) + count_occ Z.eq_dec rs r)%nat.
Proof.
  revert acc. induction rs as [|r' rs IH]; intros acc; simpl; [lia|].
  rewrite IH. unfold count_step.
  destruct (Z.eq_dec r' r) as [->|Hne].
  - rewrite lookup_insert_eq. simpl. lia.
  - by rewrite lookup_insert_ne.
Qed.

Lemma foldl_count_step_none (rs : list Z) (acc : gmap Z nat) (r : Z) :
  foldl count_step acc rs !! r = None <-> acc !! r = None /\ r ∉ rs.
Proof.
  revert acc. induction rs as [|r' rs IH]; intros acc; simpl.
  - split; [|by intros [? _]]. intros Hacc. split; [done|].
    apply not_elem_of_nil.
  - rewrite IH, not_elem_of_cons. unfold count_step.
    destruct (decide (r' = r)) as [->|Hne].
    + rewrite lookup_insert_eq. split; [by intros [? _]|].
      by intros [_ [? _]].
    + rewrite lookup_insert_ne by done. split.
      * intros [? ?]. repeat split; [done|congruence|done].
      * by intros [? [_ ?]].
Qed.

Lemma count_step_lookup (rs : list Z) (r : Z) (n : nat) :
  foldl count_step ∅ rs !! r = Some n
  <-> n = count_occ Z.eq_dec rs r /\ (0 < n)%nat.
Proof.
  pose proof (foldl_count_step_lookup rs ∅ r) as Hcount.
  pose proof (foldl_count_step_none rs ∅ r) as Hnone.
  rewrite lookup_empty in Hcount, Hnone. simpl in Hcount.
  destruct (foldl count_step ∅ rs !! r) as [v|] eqn:Hv; simpl in Hcount.
  - assert (r ∈ rs) as Hin.
    { destruct (decide (r ∈ rs)) as [|Hnot]; [done|].
      by pose proof (proj2 Hnone (conj eq_refl Hnot)). }
    apply list_elem_of_In, (count_occ_In Z.eq_dec) in Hin.
    split.
    + intros [= <-]. split; [done|lia].
    + intros [-> _]. by rewrite Hcount.
  - split; [done|]. intros [-> Hpos].
    destruct (proj1 Hnone eq_refl) as [_ Hnot].
    rewrite list_elem_of_In in Hnot.
    apply (count_occ_not_In Z.eq_dec) in Hnot. lia.
Qed.

Lemma count_step_sum (acc : gmap Z nat) (r : Z) :
  sum_list_with snd (map_to_list (count_step acc r))
  = S (sum_list_with snd (map_to_list acc)).
Proof.
  unfold count_step. destruct (acc !! r) as [v|] eqn:Hr; simpl.
  - rewrite <- (insert_delete_eq acc r (v + 1)%nat).
    rewrite map_to_list_insert by apply lookup_delete_eq.
    rewrite <- (insert_delete_id acc r v Hr) at 2.
    rewrite map_to_list_insert by apply lookup_delete_eq.
    simpl. lia.
  - by rewrite map_to_list_insert.
Qed.

Lemma foldl_count_step_sum (rs : list Z) (acc : gmap Z nat) :
  sum_list_with snd (map_to_list (foldl count_step acc rs))
  = (sum_list_with snd (map_to_list acc) + length rs)%nat.
Proof.
  revert acc. induction rs as [|r rs IH]; intros acc; simpl; [lia|].
  rewrite IH, count_step_sum. lia.
Qed.

(** X24. The [clicks_by_rank] table of [get_rank_metrics] lists the ranks
    of the matching clicks in strictly ascending order, each once with
    the number of matching clicks of that rank, and these numbers add up
    to [total_clicks]. *)
Theorem get_rank_metrics_histogram (self : ClickTrackingService)
    (d : Database) (user_id variant : option string) (days : Z)
    (utcnow : ABTesting.datetime) (avg : Q)
    (median_rank min_rank max_rank : Z) (clicks_by_rank : list (Z * nat))
    (total : nat) :
  db self = Some d ->
  get_rank_metrics self user_id variant days utcnow
  = Ranks avg median_rank min_rank max_rank clicks_by_rank total ->
  StronglySorted (fun a b => (fst a < fst b)%Z) clicks_by_rank
  /\ (forall (r : Z) (n : nat),
        (r, n) ∈ clicks_by_rank
        <-> n = count_occ Z.eq_dec
                  (matching_ranks d (ctr_filter user_id variant days utcnow))
                  r
            /\ (0 < n)%nat)
  /\ sum_list_with snd clicks_by_rank = total.
Proof.
  intros Hdb. unfold get_rank_metrics. rewrite Hdb.
  fold (ctr_filter user_id variant days utcnow).
  set (f := ctr_filter user_id variant days utcnow).
  unfold find, matching_ranks.
  destruct (reachable (clicks_collection d)); [|done].
  destruct (List.filter (click_matches f) (documents (clicks_collection d)))
    as [|click rest]; [done|].
  set (ranks := map ClickEvent.rank (click :: rest)).
  intros [= _ _ _ _ <- <-].
  change (foldl count_step (count_step ∅ (ClickEvent.rank click))
            (map ClickEvent.rank rest))
    with (foldl count_step ∅ ranks).
  change (S (length rest)) with (length (click :: rest)).
  pose proof (sorted_perm fst (map_to_list (foldl count_step ∅ ranks)))
    as Hperm.
  split; [|split].
  - apply sorted_strict; [apply sorted_sorted|].
    rewrite Hperm. apply NoDup_fst_map_to_list.
  - intros r n. rewrite Hperm, elem_of_map_to_list.
    apply count_step_lookup.
  - rewrite Hperm, foldl_count_step_sum, map_to_list_empty.
    unfold ranks. by rewrite length_map.
Qed.

Lemma get_rank_metrics_histogram_witness :
  StronglySorted (fun a b => (fst a < fst b)%Z) [(0%Z, 1%nat)]
  /\ (forall (r : Z) (n : nat),
        (r, n) ∈ [(0%Z, 1%nat)]
        <-> n = count_occ Z.eq_dec
                  (matching_ranks one_click_database
                     (ctr_filter None None 7 200%Z))
                  r
            /\ (0 < n)%nat)
  /\ sum_list_with snd [(0%Z, 1%nat)] = 1%nat.
Proof.
  apply (get_rank_metrics_histogram one_click_three_impressions
           one_click_database None None 7 200%Z (0 # 100) 0 0 0).
  - reflexivity.
  - vm_compute. reflexivity.
Defined.

End RankProps.

(** ** Image and multimodal search *)

Section MultimodalProps.
Import SearchService.
Local Open Scope R_scope.

(** X25. A multimodal search without a usable query -- the text and the
    image path each missing or empty -- raises a [ValueError] before it
    embeds or searches anything: the one of [search_multimodal] itself
    when both are [None], and otherwise the one of [fuse_embeddings], which
    is then given no vector. *)
Theorem search_multimodal_needs_a_query (mb : MultimodalBackend)
    (text_query image_path : option string) (image_weight text_weight : R)
    (top_k : Z) (category_filter color_filter : option string)
    (enable_reranking enable_debug : bool) :
  Ranking.falsy text_query = true -> Ranking.falsy image_path = true ->
  search_multimodal mb text_query image_path image_weight text_weight
    top_k category_filter color_filter enable_reranking enable_debug
  = Raise (ValueError
             (match text_query, image_path with
              | None, None => no_query_message
              | _, _ => no_vector_message
              end)).
Proof.
  destruct text_query as [[|c q]|], image_path as [[|c' p]|]; done.
Qed.

Lemma search_multimodal_needs_a_query_witness :
  search_multimodal one_hit_multimodal (Some "") None 0.6 0.4 5 None None
    true false
  = Raise (ValueError no_vector_message).
Proof.
  by apply (search_multimodal_needs_a_query one_hit_multimodal (Some "")
              None).
Defined.

Lemma exact_match_boost_range (a b : option string) :
  0 <= Ranking.exact_match_boost a b <= 1.
Proof.
  unfold Ranking.exact_match_boost.
  destruct a as [sa|], b as [sb|]; try lra.
  destruct (_ || _); [lra|]. destruct (String.eqb _ _); lra.
Qed.

Lemma search_by_vector_hits (be : Backend) (query_vector : list R)
    (top_k : Z) (category_filter color_filter : option string)
    (results : list SearchResult.t) :
  search_by_vector be query_vector top_k category_filter color_filter
  = Return results ->
  exists raws,
    client_search_by_vector be query_vector top_k (given category_filter)
      (given color_filter) = Return raws
    /\ Forall (fun r => exists raw, raw ∈ raws /\ r = result_of_raw raw)
         results.
Proof.
  unfold search_by_vector.
  destruct (client_search_by_vector _ _ _ _ _) as [raws|]; [|done].
  simpl. intros [= <-]. exists raws. split; [done|].
  apply Forall_forall. intros r Hr.
  apply slice_to_elem_of, list_elem_of_fmap in Hr as (raw & -> & Hraw).
  exists raw. split; [|done].
  by apply list_elem_of_In, filter_In in Hraw as [?%list_elem_of_In _].
Qed.

(** X26. An image search that re-ranks has no text to compare with the
    titles, so the text part of the score is always 0: over an index
    whose similarities are at most 1, the [similarity] of every returned
    result lies between 0 and 0.9. *)
Theorem search_by_image_score_at_most (mb : MultimodalBackend)
    (image_path : string) (top_k : Z)
    (category_filter color_filter : option string) (enable_debug : bool)
    (results : list SearchResult.t) :
  similarity_at_most_one (text_backend mb) ->
  search_by_image mb image_path top_k category_filter color_filter true
    enable_debug = Return results ->
  Forall
    (fun r =>
       exists s, SearchResult.similarity r = Some s /\ 0 <= s <= 0.9)
    results.
Proof.
  intros Hindex. unfold search_by_image.
  destruct (embed_image mb image_path) as [v|]; [|done]. simpl.
  destruct (search_by_vector _ _ _ _ _) as [initial|] eqn:Hsearch; [|done].
  simpl. apply search_by_vector_hits in Hsearch as (raws & Hraws & Hhits).
  apply Hindex in Hraws.
  destruct (Nat.eqb_spec (length initial) 0) as [Hlen|_].
  { apply length_zero_iff_nil in Hlen as ->. intros [= <-].
    unfold slice_to. destruct (0 <=? top_k)%Z; by rewrite take_nil. }
  intros [= <-]. apply Forall_forall. intros r Hr.
  apply list_elem_of_fmap in Hr as (rd & -> & Hrd).
  apply slice_to_elem_of in Hrd.
  rewrite rerank_results_perm in Hrd.
  apply list_elem_of_fmap in Hrd as (res & -> & Hres).
  apply list_elem_of_fmap in Hres as (dict & -> & Hd).
  apply list_elem_of_fmap in Hd as (c & -> & Hc).
  rewrite Forall_forall in Hhits. destruct (Hhits c Hc) as (raw & Hraw & ->).
  rewrite Forall_forall in Hraws. specialize (Hraws raw Hraw).
  eexists. split.
  { unfold annotate, Ranking.score_one, result_of_reranked. simpl.
    by destruct enable_debug. }
  unfold Ranking.score_of. simpl.
  rewrite compute_final_score_default.
  pose proof (exact_match_boost_range color_filter (raw_color raw)).
  pose proof (exact_match_boost_range category_filter (raw_category raw)).
  unfold vector_value, Rmax, Rmin.
  repeat (destruct (Rle_dec _ _); try lra).
Qed.

Lemma search_by_image_score_at_most_witness :
  Forall
    (fun r =>
       exists s, SearchResult.similarity r = Some s /\ 0 <= s <= 0.9)
    [reranked_image_hit].
Proof.
  apply (search_by_image_score_at_most one_hit_multimodal "/tmp/query.jpg"
           5 None None false).
  - intros v k category color raws [= <-]. repeat constructor.
    unfold running_shoes. simpl. lra.
  - reflexivity.
Defined.

End MultimodalProps.

(** ** The middleware and the search route *)

Section MiddlewareProps.
Import ABTesting ABMiddleware.

Lemma get_search_variant_value (v : ExperimentVariant) :
  SearchVariants.get_search_variant (value v) = Return (variant_class v).
Proof. by destruct v. Qed.

Lemma log_search_existing (self : ExperimentManager) (u q : string) (n : Z)
    (t : Q) (sid : option string) (rand : Q) (now stamp : datetime)
    (a : ExperimentAssignment.t) :
  get_assignment self u = Some a ->
  log_search self u q n t sid rand now stamp
  = Return
      (ExperimentEvent.SearchEvent
         (ExperimentEvent.Base u (ExperimentAssignment.variant a) stamp
            (Some q) sid ∅) n t "search",
       log_event self
         (ExperimentEvent.SearchEvent
            (ExperimentEvent.Base u (ExperimentAssignment.variant a) stamp
               (Some q) sid ∅) n t "search")).
Proof.
  intros Hget. unfold log_search, assignment_for. by rewrite Hget.
Qed.

(** X27. Behind the middleware, with the memory or the Redis backend, a
    text search that succeeds is consistent about its variant: the variant
    named in the [X-Variant] header of the response is the one whose
    search produced the results and the one recorded in the search event
    that the request appends to the log, for the user the middleware
    extracted. *)
Theorem middleware_search_consistent (self : ABTestingMiddleware)
    (be : SearchService.Backend) (manager : ExperimentManager)
    (env : ABSearch.Env) (request : Request)
    (user_uuid4 session_uuid4 : string) (rand : Q) (now : datetime)
    (query : string) (top_k : Z) (category color : option string)
    (debug : bool) (response : Response ABSearch.SearchResponse)
    (manager' : ExperimentManager) :
  keeps_assignments manager ->
  dispatch self manager request
    (text_search_route be env query top_k category color debug)
    user_uuid4 session_uuid4 rand now
  = Return (response, manager') ->
  exists v : ExperimentVariant,
    response_headers response !! "X-Variant"%string = Some (value v)
    /\ response_headers response !! "X-User-ID"%string
       = Some (_extract_user_id self request user_uuid4)
    /\ SearchVariants.search_by_text_of (variant_class v) be query top_k
         category color debug (ABSearch.elapsed_ms env)
       = Return (ABSearch.results (body response), ABSearch.elapsed_ms env)
    /\ exists b n t ty,
         _events manager'
         = _events manager ++ [ExperimentEvent.SearchEvent b n t ty]
         /\ ExperimentEvent.variant b = v
         /\ ExperimentEvent.user_id b
            = _extract_user_id self request user_uuid4.
Proof.
  intros Hk. unfold dispatch.
  set (uid := _extract_user_id self request user_uuid4).
  set (sid := _extract_session_id self request session_uuid4).
  pose proof (assign_variant_frame manager uid None rand now) as Hframe.
  destruct (assign_variant manager uid None rand now) as [[a m1]|] eqn:Ha;
    [|done].
  simpl in Hframe. destruct Hframe as (_ & _ & _ & Hevents).
  destruct (assign_variant_stores _ _ _ _ _ _ _ Hk Ha) as [_ Hget].
  simpl. unfold text_search_route. simpl.
  destruct (ABSearch.search_by_text_ab _ _ _ _ _ _ _ _ _ _ _)
    as [[resp m2]|] eqn:Hab; [|done].
  simpl. intros [= <- <-]. simpl.
  apply search_by_text_ab_returns in Hab
    as (sv & event & Hsv & Hrun & _ & _ & _ & Hlog).
  change (SearchVariants.get_search_variant
            (value (ExperimentAssignment.variant a)) = Return sv) in Hsv.
  rewrite get_search_variant_value in Hsv. injection Hsv as <-.
  rewrite (log_search_existing _ _ _ _ _ _ _ _ _ a Hget) in Hlog.
  injection Hlog as <- <-.
  exists (ExperimentAssignment.variant a). split; [|split; [|split]].
  - do 2 (rewrite lookup_insert_ne by done). by rewrite lookup_insert_eq.
  - rewrite lookup_insert_ne by done. by rewrite lookup_insert_eq.
  - done.
  - do 4 eexists. simpl. rewrite Hevents. by repeat split.
Qed.

Lemma middleware_search_consistent_witness :
  exists v : ExperimentVariant,
    response_headers (routed_response) !! "X-Variant"%string
    = Some (value v)
    /\ response_headers (routed_response) !! "X-User-ID"%string
       = Some (_extract_user_id default_middleware request_of_u1 "uuid-1")
    /\ SearchVariants.search_by_text_of (variant_class v) one_hit_backend
         "shoes" 5 None None false (ABSearch.elapsed_ms sample_env)
       = Return (ABSearch.results (body routed_response),
                 ABSearch.elapsed_ms sample_env)
    /\ exists b n t ty,
         _events routed_manager
         = _events memory_manager ++ [ExperimentEvent.SearchEvent b n t ty]
         /\ ExperimentEvent.variant b = v
         /\ ExperimentEvent.user_id b
            = _extract_user_id default_middleware request_of_u1 "uuid-1".
Proof.
  apply (middleware_search_consistent default_middleware one_hit_backend
           memory_manager sample_env request_of_u1 "uuid-1" "uuid-2"
           (3 # 10) 100%Z "shoes" 5 None None false).
  - by left.
  - reflexivity.
Defined.

End MiddlewareProps.

(** ** Incomplete products *)

Section CompleteProps.
Import SearchVariants ABSearch.

Lemma product_result_of_complete (r : SearchResult.t) :
  match product_result_of r with
  | Return _ => complete r = true
  | Raise e =>
      complete r = false
      /\ e = ValueError "validation error for ProductResult"
  end.
Proof.
  unfold product_result_of, complete.
  destruct r as [pid ti de co ca im si di dbg]. simpl.
  destruct pid, ti, de, co, ca, im, si, di; done.
Qed.

Lemma product_results_of_complete (rs : list SearchResult.t) :
  match product_results_of rs with
  | Return _ => forallb complete rs = true
  | Raise e =>
      forallb complete rs = false
      /\ e = ValueError "validation error for ProductResult"
  end.
Proof.
  induction rs as [|r rs IH]; simpl; [done|].
  pose proof (product_result_of_complete r) as Hr.
  destruct (product_result_of r) as [p|e]; simpl.
  - rewrite Hr. simpl.
    by destruct (product_results_of rs) as [ps|e'].
  - destruct Hr as [-> ->]. done.
Qed.

(** X28. The conversion to [ProductResult] is all or nothing: when the
    search returns a result in which a required field has no value -- a
    product stored without a description, say -- the variant returns no
    product at all, and a valid request to the endpoint fails with status
    500, for either variant. *)
Theorem search_by_text_ab_incomplete_product_is_500
    (be : SearchService.Backend) (manager : ABTesting.ExperimentManager)
    (env : Env) (v : ABTesting.ExperimentVariant) (user_id : string)
    (session_id : option string) (query : string) (top_k : Z)
    (category color : option string) (debug : bool)
    (found : list SearchResult.t) :
  query <> EmptyString -> (1 <= top_k <= 100)%Z ->
  SearchService.search_by_text be query top_k category color
    (bool_decide (v = ABTesting.SEARCH_V2)) debug = Return found ->
  forallb complete found = false ->
  (exists msg,
      search_by_text_of (variant_class v) be query top_k category color
        debug (elapsed_ms env) = Raise (Exception msg))
  /\ exists detail,
       search_by_text_ab be manager env (ABTesting.value v) user_id
         session_id query top_k category color debug
       = Raise (HTTPException 500 detail).
Proof.
  intros Hquery Htop Hfound Hincomplete.
  assert (exists msg,
             search_by_text_of (variant_class v) be query top_k category
               color debug (elapsed_ms env) = Raise (Exception msg))
    as [msg Hrun].
  { pose proof (product_results_of_complete found) as Hps.
    destruct v; simpl in *;
      unfold SearchVariantV1.search_by_text, SearchVariantV2.search_by_text,
        run_search; rewrite Hfound; simpl;
      destruct (product_results_of found) as [ps|e];
      try congruence; by eexists. }
  split; [by exists msg|].
  unfold search_by_text_ab.
  destruct query as [|c query]; [done|]. simpl String.length.
  destruct (Z.ltb_spec top_k 1); [lia|].
  destruct (Z.ltb_spec 100 top_k); [lia|]. simpl.
  unfold try_search.
  assert (get_search_variant (ABTesting.value v) = Return (variant_class v))
    as -> by by destruct v.
  simpl. rewrite Hrun. simpl. by eexists.
Qed.

Lemma search_by_text_ab_incomplete_product_is_500_witness :
  (exists msg,
      search_by_text_of (variant_class ABTesting.SEARCH_V1)
        undescribed_backend "shoes" 5 None None false
        (elapsed_ms sample_env) = Raise (Exception msg))
  /\ exists detail,
       search_by_text_ab undescribed_backend memory_manager sample_env
         (ABTesting.value ABTesting.SEARCH_V1) "u1" None "shoes" 5 None None
         false
       = Raise (HTTPException 500 detail).
Proof.
  apply (search_by_text_ab_incomplete_product_is_500 undescribed_backend
           memory_manager sample_env ABTesting.SEARCH_V1 "u1" None "shoes" 5
           None None false
           [SearchService.result_of_raw running_shoes;
            SearchService.result_of_raw undescribed_shoes]).
  - done.
  - lia.
  - reflexivity.
  - reflexivity.
Defined.

End CompleteProps.

(** ** The breakdown of the click-through rate *)

Section BreakdownProps.
Import ClickTracking.
Local Open Scope Q_scope.





End BreakdownProps.
